(** * The 13-Moon calendar Kin calculator: shallow embedding and verification

    Two copies of the calculator live in the repository: the stand-alone
    script (tables [monthConstants], [yearConstants], [sealNames],
    [toneNames]; an unsupported year throws) and the one inside the [Cover]
    React component (tables [MONTH_CONSTANTS], [YEAR_CONSTANTS], ...; an
    unsupported year warns on the console and returns a typed failure
    record).  Both are embedded below, each in a module of its own, and the
    statements of the specification are proved about them.

    Numbers.  The calculator is called on integers.  A JS number that holds
    an integer of magnitude below 2^53 is modelled by that integer in [Z];
    on that range [+], [-], [%] and the comparisons of JS are exact, so the
    embedding uses the operations of [Z].  The only non-integer number the
    code can produce from integer arguments is [NaN] (a month outside the
    month table reads [undefined]), so a number is an integer or [NaN]. *)

From Stdlib Require Import ZArith String Ascii Bool Lia.
From stdpp Require Import base option list gmap strings pretty.
From Equations Require Import Equations.

Local Open Scope Z_scope.

(** ** The fragment of JavaScript the calculator uses *)

Module JS.

Inductive num : Type :=
| Int (z : Z)
| NaN.

(** Values stored in the fields of a result object.  A property that an
    object literal does not set reads as [Undefined]. *)
Inductive value : Type :=
| Null
| Undefined
| Num (n : num)
| Str (s : string).

Definition add (a b : num) : num :=
  match a, b with
  | Int x, Int y => Int (x + y)
  | _, _ => NaN
  end.

Definition sub (a b : num) : num :=
  match a, b with
  | Int x, Int y => Int (x - y)
  | _, _ => NaN
  end.

(** [a % b]: the remainder takes the sign of the dividend. *)
Definition rem (a b : num) : num :=
  match a, b with
  | Int x, Int y => if y =? 0 then NaN else Int (Z.rem x y)
  | _, _ => NaN
  end.

(** [a > b] and [a < b]; a comparison with [NaN] is false. *)
Definition gtb (a b : num) : bool :=
  match a, b with
  | Int x, Int y => x >? y
  | _, _ => false
  end.

Definition ltb (a b : num) : bool :=
  match a, b with
  | Int x, Int y => x <? y
  | _, _ => false
  end.

(** Reading a key of a table of numbers: [None] is [undefined]. *)
Definition truthy (o : option Z) : bool :=
  match o with
  | Some c => negb (c =? 0)
  | None => false
  end.

(** A table read used as an operand of [+]: [undefined] becomes [NaN]. *)
Definition to_number (o : option Z) : num :=
  match o with
  | Some c => Int c
  | None => NaN
  end.

(** [arr[i]] on an array of strings. *)
Definition index (arr : list string) (i : num) : value :=
  match i with
  | Int z =>
      if z <? 0 then Undefined
      else match arr !! Z.to_nat z with
           | Some s => Str s
           | None => Undefined
           end
  | NaN => Undefined
  end.

(** [String(n)] for an integer below 10^21 in magnitude, and for [NaN]. *)
Definition num_to_string (n : num) : string :=
  match n with
  | Int z => pretty z
  | NaN => "NaN"
  end.

(** The conversion a template literal applies to [${v}]. *)
Definition to_string (v : value) : string :=
  match v with
  | Null => "null"
  | Undefined => "undefined"
  | Num n => num_to_string n
  | Str s => s
  end.

Fixpoint repeat_char (n : nat) (c : ascii) : string :=
  match n with
  | O => EmptyString
  | S n' => String c (repeat_char n' c)
  end.

(** [s.padStart(n, c)] for a one-character pad string. *)
Definition padStart (n : nat) (c : ascii) (s : string) : string :=
  repeat_char (n - String.length s) c +:+ s.

End JS.

Import JS.

(** ** The two normalisation loops

    Both files end the arithmetic with the same two statements,

      while (kin > 260) { kin -= 260; }
      while (kin < 1)   { kin += 260; }

    Each loop is a recursive function on the value of [kin]; the distance
    to the bound decreases at every turn. *)

Definition above (kin : num) : nat :=
  match kin with
  | Int z => Z.to_nat (z - 260)
  | NaN => O
  end.

Definition below (kin : num) : nat :=
  match kin with
  | Int z => Z.to_nat (1 - z)
  | NaN => O
  end.

Equations? while_gt_260 (kin : num) : num by wf (above kin) Nat.lt :=
  while_gt_260 kin with Equations.Prop.Logic.inspect (gtb kin (Int 260)) => {
    | exist _ true H := while_gt_260 (sub kin (Int 260));
    | exist _ false _ := kin }.
Proof. destruct kin; simpl in *; [lia | discriminate]. Qed.

Equations? while_lt_1 (kin : num) : num by wf (below kin) Nat.lt :=
  while_lt_1 kin with Equations.Prop.Logic.inspect (ltb kin (Int 1)) => {
    | exist _ true H := while_lt_1 (add kin (Int 260));
    | exist _ false _ := kin }.
Proof. destruct kin; simpl in *; [lia | discriminate]. Qed.

(** ** The stand-alone calculator script *)

Module Calculator.

Definition monthConstants : gmap Z Z :=
  list_to_map
    [ (1, 0); (2, 31); (3, 59); (4, 90); (5, 120); (6, 151);
      (7, 181); (8, 212); (9, 243); (10, 13); (11, 44); (12, 74) ].

Definition yearConstants : gmap Z Z :=
  list_to_map
    [ (2014, 62); (2015, 167); (2016, 12); (2017, 117); (2018, 222);
      (2019, 67); (2020, 172); (2021, 17); (2022, 122); (2023, 227);
      (2024, 72); (2025, 177); (2026, 22); (2027, 127); (2028, 232);
      (2029, 77); (2030, 182) ].

Definition sealNames : list string :=
  [ "紅龍"; "白風"; "藍夜"; "黃種子"; "紅蛇";
    "白世界橋"; "藍手"; "黃星星"; "紅月"; "白狗";
    "藍猴"; "黃人"; "紅天行者"; "白巫師"; "藍鷹";
    "黃戰士"; "紅地球"; "白鏡"; "藍風暴"; "黃太陽" ].

Definition toneNames : list string :=
  [ "磁性的"; "月亮的"; "電力的"; "自我存在的"; "超頻的";
    "韻律的"; "共振的"; "銀河星系的"; "太陽的"; "行星的";
    "光譜的"; "水晶的"; "宇宙的" ].

(** The four module-level bindings.  They are objects and arrays, which a
    [const] binding does not freeze, so a call runs against their current
    contents and hands back the contents it leaves behind. *)
Record Globals : Type := mkGlobals {
  g_monthConstants : gmap Z Z;
  g_yearConstants : gmap Z Z;
  g_sealNames : list string;
  g_toneNames : list string
}.

Definition globals : Globals :=
  mkGlobals monthConstants yearConstants sealNames toneNames.

Definition isLeapYear (year : Z) : bool :=
  ((Z.rem year 4 =? 0) && negb (Z.rem year 100 =? 0))
  || (Z.rem year 400 =? 0).

(** The object [calculateKin] returns.  The Hunab Ku object has no
    [sealNumber] property: the field is [Undefined] there. *)
Record KinResult : Type := mkKinResult {
  kin : value;
  seal : value;
  tone : value;
  sealNumber : value;
  isHunabKu : bool;
  displayText : string
}.

Inductive completion : Type :=
| Return (r : KinResult)
| Throw (message : string).

Definition hunabKu : KinResult :=
  mkKinResult Null Null Null Undefined true "Hunab Ku".

(** [let kin = yearConstants[year] + monthConstants[month] + day] *)
Definition baseKin (G : Globals) (year month day : Z) : num :=
  add (add (to_number (g_yearConstants G !! year))
           (to_number (g_monthConstants G !! month)))
      (Int day).

(** The guard of the leap-year statement. *)
Definition leapGuard (year month day : Z) : bool :=
  isLeapYear year && ((month >? 2) || ((month =? 2) && (day >? 28))).

(** [if (guard) { kin += 1 }] *)
Definition leapStep (year month day : Z) (kin : num) : num :=
  if leapGuard year month day then add kin (Int 1) else kin.

Definition run_calculateKin (year month day : Z) (G : Globals)
  : completion * Globals :=
  if (month =? 2) && (day =? 29) then (Return hunabKu, G)
  else if negb (truthy (g_yearConstants G !! year)) then
    (Throw ("年份 " +:+ num_to_string (Int year) +:+ " 的常數尚未定義"), G)
  else
    let kin := baseKin G year month day in
    let kin := leapStep year month day kin in
    let kin := while_gt_260 kin in
    let kin := while_lt_1 kin in
    let sealIndex := rem (sub kin (Int 1)) (Int 20) in
    let seal := index (g_sealNames G) sealIndex in
    let toneIndex := rem (sub kin (Int 1)) (Int 13) in
    let tone := index (g_toneNames G) toneIndex in
    let sealNumber := add sealIndex (Int 1) in
    (Return (mkKinResult (Num kin) seal tone (Num sealNumber) false
                         (to_string tone +:+ to_string seal)), G).

(** A call in the program as loaded: the tables hold their initial
    contents. *)
Definition calculateKin (year month day : Z) : completion :=
  fst (run_calculateKin year month day globals).

End Calculator.

(** ** The calculator of the [Cover] component *)

Module Cover.

Definition MONTH_CONSTANTS : gmap Z Z :=
  list_to_map
    [ (1, 0); (2, 31); (3, 59); (4, 90); (5, 120); (6, 151);
      (7, 181); (8, 212); (9, 243); (10, 13); (11, 44); (12, 74) ].

Definition YEAR_CONSTANTS : gmap Z Z :=
  list_to_map
    [ (2014, 62); (2015, 167); (2016, 12); (2017, 117); (2018, 222);
      (2019, 67); (2020, 172); (2021, 17); (2022, 122); (2023, 227);
      (2024, 72); (2025, 177); (2026, 22); (2027, 127); (2028, 232);
      (2029, 77); (2030, 182); (2031, 27); (2032, 132); (2033, 237);
      (2034, 82); (2035, 187) ].

Definition SEAL_NAMES : list string :=
  [ "紅龍"; "白風"; "藍夜"; "黃種子"; "紅蛇";
    "白世界橋"; "藍手"; "黃星星"; "紅月"; "白狗";
    "藍猴"; "黃人"; "紅天行者"; "白巫師"; "藍鷹";
    "黃戰士"; "紅地球"; "白鏡"; "藍風暴"; "黃太陽" ].

Definition TONE_NAMES : list string :=
  [ "磁性的"; "月亮的"; "電力的"; "自我存在的"; "超頻的";
    "韻律的"; "共振的"; "銀河星系的"; "太陽的"; "行星的";
    "光譜的"; "水晶的"; "宇宙的" ].

Definition isLeapYear (year : Z) : bool :=
  ((Z.rem year 4 =? 0) && negb (Z.rem year 100 =? 0))
  || (Z.rem year 400 =? 0).

(** The object [calculateKin] returns; the two early returns do not set
    [sealNumber]. *)
Record KinResult : Type := mkKinResult {
  kin : value;
  seal : value;
  tone : value;
  sealNumber : value;
  isHunabKu : bool;
  displayText : string;
  sealImagePath : value
}.

Definition hunabKu : KinResult :=
  mkKinResult Null Null Null Undefined true "Hunab Ku"
              (Str "./images/hunab-ku-1.png").

Definition yearUndefined : KinResult :=
  mkKinResult Null Null Null Undefined false "年份數據未定義" Null.

Definition baseKin (year month day : Z) : num :=
  add (add (to_number (YEAR_CONSTANTS !! year))
           (to_number (MONTH_CONSTANTS !! month)))
      (Int day).

Definition leapGuard (year month day : Z) : bool :=
  isLeapYear year && ((month >? 2) || ((month =? 2) && (day >? 28))).

Definition leapStep (year month day : Z) (kin : num) : num :=
  if leapGuard year month day then add kin (Int 1) else kin.

(** The function with its one effect, [console.warn]: the lines written
    to the console are appended to [console]. *)
Definition run_calculateKin (year month day : Z) (console : list string)
  : KinResult * list string :=
  if (month =? 2) && (day =? 29) then (hunabKu, console)
  else if negb (truthy (YEAR_CONSTANTS !! year)) then
    (yearUndefined,
     console ++
     ["年份 " +:+ num_to_string (Int year)
        +:+ " 的常數尚未定義，請更新 YEAR_CONSTANTS"])
  else
    let kin := baseKin year month day in
    let kin := leapStep year month day kin in
    let kin := while_gt_260 kin in
    let kin := while_lt_1 kin in
    let sealIndex := rem (sub kin (Int 1)) (Int 20) in
    let seal := index SEAL_NAMES sealIndex in
    let toneIndex := rem (sub kin (Int 1)) (Int 13) in
    let tone := index TONE_NAMES toneIndex in
    let sealNumber := add sealIndex (Int 1) in
    (mkKinResult (Num kin) seal tone (Num sealNumber) false
                 (to_string tone +:+ to_string seal)
                 (Str ("./images/"
                         +:+ padStart 2 "0" (num_to_string sealNumber)
                         +:+ ".png")),
     console).

Definition calculateKin (year month day : Z) : KinResult :=
  fst (run_calculateKin year month day []).

End Cover.

(** ** The effect of the [Cover] component

    The body of the component's [useEffect]: it reads the clock, stores the
    date of the day and the result of [calculateKin] in the two state
    variables, and writes the steps to the console.  The clock is the
    argument [now]; the two state variables start as [null] and are both
    set when the effect ends. *)

Module CoverComponent.

(** The three readings the effect takes from [new Date()]. *)
Record Date : Type := mkDate {
  getFullYear : Z;
  getMonth : Z;
  getDate : Z
}.

Record CurrentDate : Type := mkCurrentDate {
  year : Z;
  month : Z;
  day : Z;
  formatted : string
}.

Record State : Type := mkState {
  kinData : option Cover.KinResult;
  currentDate : option CurrentDate
}.

(** [${table[key]}] in a template literal. *)
Definition read_to_string (o : option Z) : string :=
  match o with
  | Some c => num_to_string (Int c)
  | None => "undefined"
  end.

Definition effect (now : Date) (console : list string)
  : State * list string :=
  let year := getFullYear now in
  let month := getMonth now + 1 in
  let day := getDate now in
  let currentDate :=
    mkCurrentDate year month day
      (num_to_string (Int year)
         +:+ "." +:+ padStart 2 "0" (num_to_string (Int month))
         +:+ "." +:+ padStart 2 "0" (num_to_string (Int day))) in
  let (result, console) := Cover.run_calculateKin year month day console in
  let console :=
    console ++
    [ "=== Kin 計算 ===";
      "日期: " +:+ num_to_string (Int year)
        +:+ "/" +:+ num_to_string (Int month)
        +:+ "/" +:+ num_to_string (Int day) ] in
  let console :=
    if negb (Cover.isHunabKu result) then
      console ++
      [ "年份常數: " +:+ read_to_string (Cover.YEAR_CONSTANTS !! year);
        "月份常數: " +:+ read_to_string (Cover.MONTH_CONSTANTS !! month);
        "日期: " +:+ num_to_string (Int day);
        "KIN: " +:+ to_string (Cover.kin result);
        "完整名稱: " +:+ Cover.displayText result ]
    else
      console ++ [ "今日為 2/29，顯示 Hunab Ku" ] in
  (mkState (Some result) (Some currentDate), console).

End CoverComponent.

(** ** The Kin engine of the [RedRoom] component

    [RedRoom] draws a kin number and derives tone and glyph from it with
    tables of its own.  The message table [KIN_DATA] is imported from a
    file that is not part of the sources read here: it is a parameter, a
    table from kin numbers to message objects. *)

Module RedRoom.

Record Message : Type := mkMessage {
  synchronicMessage : string;
  highFrequency : string;
  lowFrequency : string;
  alignment : string
}.

Record Tone : Type := mkTone {
  tone_id : Z;
  tone_name : string
}.

Record Glyph : Type := mkGlyph {
  glyph_id : Z;
  glyph_name : string;
  imagePath : string;
  color : string
}.

Definition TONE_NAMES : list Tone :=
  [ mkTone 1 "磁性"; mkTone 2 "月亮"; mkTone 3 "電力";
    mkTone 4 "自我存在"; mkTone 5 "超頻"; mkTone 6 "韻律";
    mkTone 7 "共鳴"; mkTone 8 "銀河"; mkTone 9 "太陽";
    mkTone 10 "行星"; mkTone 11 "光譜"; mkTone 12 "水晶";
    mkTone 13 "宇宙" ].

Definition GLYPH_NAMES : list Glyph :=
  [ mkGlyph 1 "紅龍" "../images/01.png" "red";
    mkGlyph 2 "白風" "../images/02.png" "white";
    mkGlyph 3 "藍夜" "../images/03.png" "blue";
    mkGlyph 4 "黃種子" "../images/04.png" "yellow";
    mkGlyph 5 "紅蛇" "../images/05.png" "red";
    mkGlyph 6 "白世界橋" "../images/06.png" "white";
    mkGlyph 7 "藍手" "../images/07.png" "blue";
    mkGlyph 8 "黃星星" "../images/08.png" "yellow";
    mkGlyph 9 "紅月" "../images/09.png" "red";
    mkGlyph 10 "白狗" "../images/10.png" "white";
    mkGlyph 11 "藍猴" "../images/11.png" "blue";
    mkGlyph 12 "黃人" "../images/12.png" "yellow";
    mkGlyph 13 "紅天行者" "../images/13.png" "red";
    mkGlyph 14 "白巫師" "../images/14.png" "white";
    mkGlyph 15 "藍鷹" "../images/15.png" "blue";
    mkGlyph 16 "黃戰士" "../images/16.png" "yellow";
    mkGlyph 17 "紅地球" "../images/17.png" "red";
    mkGlyph 18 "白鏡" "../images/18.png" "white";
    mkGlyph 19 "藍風暴" "../images/19.png" "blue";
    mkGlyph 20 "黃太陽" "../images/20.png" "yellow" ].

(** [arr[i]] on an array of objects: [None] is [undefined]. *)
Definition at_index {A : Type} (arr : list A) (i : num) : option A :=
  match i with
  | Int z => if z <? 0 then None else arr !! Z.to_nat z
  | NaN => None
  end.

(** The object both fallbacks of [getKinMessage] return. *)
Definition reading : Message :=
  mkMessage "能量讀取中..." "能量讀取中..." "能量讀取中..." "能量讀取中...".

Record KinData : Type := mkKinData {
  kinNumber : num;
  toneId : num;
  toneName : string;
  glyphId : num;
  glyphName : string;
  glyphData : Glyph;
  fullName : string;
  messages : Message
}.

(** Reading [.name] of [undefined] throws a [TypeError]. *)
Inductive completion : Type :=
| Return (d : KinData)
| TypeError.

(** One entry of the draw history. *)
Record HistoryRecord : Type := mkHistoryRecord {
  id : Z;
  record_kinNumber : num;
  timestamp : string
}.

Section WithKinData.

Variable KIN_DATA : gmap Z Message.

Definition getKinMessage (kinNumber : num) : Message :=
  match kinNumber with
  | NaN => reading
  | Int kinNum =>
      if (kinNum <? 1) || (kinNum >? 260) then reading
      else match KIN_DATA !! kinNum with
           | Some message => message
           | None => reading
           end
  end.

Definition getKinData (kinNumber : num) : completion :=
  let toneId := add (rem (sub kinNumber (Int 1)) (Int 13)) (Int 1) in
  match at_index TONE_NAMES (sub toneId (Int 1)) with
  | None => TypeError
  | Some tone =>
      let toneName := tone_name tone in
      let glyphId := add (rem (sub kinNumber (Int 1)) (Int 20)) (Int 1) in
      let messages := getKinMessage kinNumber in
      match at_index GLYPH_NAMES (sub glyphId (Int 1)) with
      | None => TypeError
      | Some glyphData =>
          Return (mkKinData kinNumber toneId toneName glyphId
                            (glyph_name glyphData) glyphData
                            (toneName +:+ "的" +:+ glyph_name glyphData)
                            messages)
      end
  end.

End WithKinData.

(** The first two lines of [MiniToneDisplay] and of [ToneDisplay]:
    [tone % 5] dots over [Math.floor(tone / 5)] bars. *)
Definition dots (tone : Z) : Z := Z.rem tone 5.

Definition bars (tone : Z) : Z := tone / 5.

(** The updater [prev => [newRecord, ...prev].slice(0, 5)] that
    [startSpinning] passes to [setHistory]. *)
Definition pushRecord (newRecord : HistoryRecord)
    (prev : list HistoryRecord) : list HistoryRecord :=
  take 5 (newRecord :: prev).

End RedRoom.

(** ** The arithmetic of the specification

    Written from the words of the specification, to compare the code
    with: the wrap-around [((raw - 1) mod 260) + 1] on the non-negative
    modulo, the proleptic Gregorian leap rule, and the adjustment of one
    day for the dates strictly after February 28 of a leap year. *)

Module Spec.

Definition wrap (raw : Z) : Z := (raw - 1) mod 260 + 1.

Definition leapYear (year : Z) : Prop :=
  (year mod 4 = 0 /\ year mod 100 <> 0) \/ year mod 400 = 0.

Definition afterFeb28 (month day : Z) : Prop :=
  2 < month \/ (month = 2 /\ 28 < day).

#[global] Instance leapYear_dec (year : Z) : Decision (leapYear year).
Proof. unfold leapYear. apply _. Defined.

#[global] Instance afterFeb28_dec (month day : Z) :
  Decision (afterFeb28 month day).
Proof. unfold afterFeb28. apply _. Defined.

Definition leapAdjustment (year month day : Z) : Z :=
  if decide (leapYear year /\ afterFeb28 month day) then 1 else 0.

End Spec.

(** * Verification *)

Example while_gt_260_1000 : while_gt_260 (Int 1000) = Int 220.
Proof. vm_compute. reflexivity. Qed.
Example while_lt_1_m1000 : while_lt_1 (Int (-1000)) = Int 40.
Proof. vm_compute. reflexivity. Qed.

Example calc_2026_1_6 :
  Calculator.calculateKin 2026 1 6 =
  Calculator.Return
    (Calculator.mkKinResult (Num (Int 28)) (Str "黃星星") (Str "月亮的")
                            (Num (Int 8)) false "月亮的黃星星").
Proof. vm_compute. reflexivity. Qed.

Example cover_2026_1_6 :
  Cover.calculateKin 2026 1 6 =
  Cover.mkKinResult (Num (Int 28)) (Str "黃星星") (Str "月亮的")
                    (Num (Int 8)) false "月亮的黃星星"
                    (Str "./images/08.png").
Proof. vm_compute. reflexivity. Qed.

Example calc_1899 :
  Calculator.calculateKin 1899 1 1 =
  Calculator.Throw "年份 1899 的常數尚未定義".
Proof. vm_compute. reflexivity. Qed.

Example calc_month_13 :
  Calculator.calculateKin 2026 13 1 =
  Calculator.Return
    (Calculator.mkKinResult (Num NaN) Undefined Undefined (Num NaN) false
                            "undefinedundefined").
Proof. vm_compute. reflexivity. Qed.

(** ** The loops compute the wrap-around *)

Section Loops.

(** One turn of each loop, as the [while] statement reads. *)
Lemma while_gt_260_turn (kin : num) :
  while_gt_260 kin =
  if gtb kin (Int 260) then while_gt_260 (sub kin (Int 260)) else kin.
Proof.
  rewrite while_gt_260_equation_1.
  unfold while_gt_260_unfold_clause_1, Equations.Prop.Logic.inspect.
  destruct (gtb kin (Int 260)); reflexivity.
Qed.

Lemma while_lt_1_turn (kin : num) :
  while_lt_1 kin =
  if ltb kin (Int 1) then while_lt_1 (add kin (Int 260)) else kin.
Proof.
  rewrite while_lt_1_equation_1.
  unfold while_lt_1_unfold_clause_1, Equations.Prop.Logic.inspect.
  destruct (ltb kin (Int 1)); reflexivity.
Qed.

Lemma while_gt_260_NaN : while_gt_260 NaN = NaN.
Proof. rewrite while_gt_260_turn. reflexivity. Qed.

Lemma while_lt_1_NaN : while_lt_1 NaN = NaN.
Proof. rewrite while_lt_1_turn. reflexivity. Qed.

Lemma while_gt_260_stop (z : Z) :
  z <= 260 -> while_gt_260 (Int z) = Int z.
Proof.
  intros Hz. rewrite while_gt_260_turn. simpl.
  destruct (Z.gtb_spec z 260); [lia | reflexivity].
Qed.

Lemma while_lt_1_stop (z : Z) :
  1 <= z -> while_lt_1 (Int z) = Int z.
Proof.
  intros Hz. rewrite while_lt_1_turn. simpl.
  destruct (Z.ltb_spec z 1); [lia | reflexivity].
Qed.

Lemma wrap_small (z : Z) : 1 <= z <= 260 -> (z - 1) mod 260 + 1 = z.
Proof. intros Hz. rewrite Z.mod_small; lia. Qed.

Lemma wrap_range (z : Z) : 1 <= (z - 1) mod 260 + 1 <= 260.
Proof. pose proof (Z.mod_pos_bound (z - 1) 260). lia. Qed.

Lemma wrap_shift_down (z : Z) :
  (z - 260 - 1) mod 260 = (z - 1) mod 260.
Proof.
  replace (z - 260 - 1) with (z - 1 + (-1) * 260) by lia.
  apply Z.mod_add. lia.
Qed.

Lemma wrap_shift_up (z : Z) :
  (z + 260 - 1) mod 260 = (z - 1) mod 260.
Proof.
  replace (z + 260 - 1) with (z - 1 + 1 * 260) by lia.
  apply Z.mod_add. lia.
Qed.

(** The first loop, started at or above 1, stops on the representative
    of the class of [z] in 1..260. *)
Lemma while_gt_260_wrap (z : Z) :
  1 <= z -> while_gt_260 (Int z) = Int ((z - 1) mod 260 + 1).
Proof.
  pattern z. apply (well_founded_induction (Z.lt_wf 1)).
  clear z. intros z IH Hz.
  destruct (Z_le_gt_dec z 260) as [Hle | Hgt].
  - rewrite while_gt_260_stop by exact Hle.
    rewrite wrap_small by lia. reflexivity.
  - rewrite while_gt_260_turn. simpl.
    destruct (Z.gtb_spec z 260); [| lia].
    rewrite IH by lia. rewrite wrap_shift_down. reflexivity.
Qed.

(** The second loop, started at or below 260, does the same from
    below. *)
Lemma while_lt_1_wrap (z : Z) :
  z <= 260 -> while_lt_1 (Int z) = Int ((z - 1) mod 260 + 1).
Proof.
  intros Hz. remember (Z.to_nat (1 - z)) as n eqn:Hn.
  revert z Hz Hn. induction (lt_wf n) as [n _ IH]. intros z Hz Hn.
  destruct (Z_lt_le_dec z 1) as [Hlt | Hge].
  - rewrite while_lt_1_turn. simpl.
    destruct (Z.ltb_spec z 1); [| lia].
    rewrite (IH (Z.to_nat (1 - (z + 260)))) by lia.
    rewrite wrap_shift_up. reflexivity.
  - rewrite while_lt_1_stop by exact Hge.
    rewrite wrap_small by lia. reflexivity.
Qed.

(** Both loops in sequence: the non-negative modulo of the
    specification, for every integer. *)
Lemma loops_wrap (z : Z) :
  while_lt_1 (while_gt_260 (Int z)) = Int ((z - 1) mod 260 + 1).
Proof.
  destruct (Z_le_gt_dec z 260) as [Hle | Hgt].
  - rewrite while_gt_260_stop by exact Hle.
    apply while_lt_1_wrap. exact Hle.
  - rewrite while_gt_260_wrap by lia.
    apply while_lt_1_stop. apply wrap_range.
Qed.

Lemma loops_NaN : while_lt_1 (while_gt_260 NaN) = NaN.
Proof. rewrite while_gt_260_NaN. apply while_lt_1_NaN. Qed.

End Loops.

(** ** The constant tables *)

(** Case analysis on an integer known to lie between two literals:
    one goal per value. *)
Ltac enum_range y lo hi :=
  let b := eval compute in (lo <=? hi) in
  lazymatch b with
  | true =>
      destruct (Z.eq_dec y lo) as [-> | ?];
      [ | let lo' := eval compute in (lo + 1) in enum_range y lo' hi ]
  | false => exfalso; lia
  end.

(** A key that is none of the listed ones has no entry. *)
Ltac absent_key :=
  apply not_elem_of_list_to_map_1; simpl;
  let Hin := fresh "Hin" in
  intros Hin;
  repeat (apply elem_of_cons in Hin as [-> | Hin]; [lia |]);
  apply elem_of_nil in Hin; exact Hin.

Section Tables.

Lemma monthConstants_Some (month : Z) :
  1 <= month <= 12 ->
  exists mc, Calculator.monthConstants !! month = Some mc /\ 0 <= mc <= 243.
Proof.
  intros Hm. enum_range month 1 12;
    (eexists; split; [vm_compute; reflexivity | lia]).
Qed.

Lemma MONTH_CONSTANTS_same :
  Cover.MONTH_CONSTANTS = Calculator.monthConstants.
Proof. reflexivity. Qed.

Lemma SEAL_NAMES_same : Cover.SEAL_NAMES = Calculator.sealNames.
Proof. reflexivity. Qed.

Lemma TONE_NAMES_same : Cover.TONE_NAMES = Calculator.toneNames.
Proof. reflexivity. Qed.

Lemma yearConstants_Some (year : Z) :
  2014 <= year <= 2030 ->
  exists yc, Calculator.yearConstants !! year = Some yc /\ 12 <= yc <= 232.
Proof.
  intros Hy. enum_range year 2014 2030;
    (eexists; split; [vm_compute; reflexivity | lia]).
Qed.

Lemma yearConstants_None (year : Z) :
  year < 2014 \/ 2030 < year ->
  Calculator.yearConstants !! year = None.
Proof. intros Hy. unfold Calculator.yearConstants. absent_key. Qed.

Lemma YEAR_CONSTANTS_Some (year : Z) :
  2014 <= year <= 2035 ->
  exists yc, Cover.YEAR_CONSTANTS !! year = Some yc /\ 12 <= yc <= 237.
Proof.
  intros Hy. enum_range year 2014 2035;
    (eexists; split; [vm_compute; reflexivity | lia]).
Qed.

Lemma YEAR_CONSTANTS_None (year : Z) :
  year < 2014 \/ 2035 < year ->
  Cover.YEAR_CONSTANTS !! year = None.
Proof. intros Hy. unfold Cover.YEAR_CONSTANTS. absent_key. Qed.

(** An entry of either year table: the year is in the listed range and
    the constant is positive. *)
Lemma yearConstants_entry (year yc : Z) :
  Calculator.yearConstants !! year = Some yc ->
  2014 <= year <= 2030 /\ 12 <= yc <= 232.
Proof.
  intros Hyc.
  destruct (Z_lt_le_dec year 2014) as [Hlo | Hlo];
    [rewrite yearConstants_None in Hyc by lia; discriminate |].
  destruct (Z_lt_le_dec 2030 year) as [Hhi | Hhi];
    [rewrite yearConstants_None in Hyc by lia; discriminate |].
  destruct (yearConstants_Some year) as (yc' & Hyc' & Hb); [lia |].
  rewrite Hyc in Hyc'. injection Hyc' as ->. lia.
Qed.

Lemma YEAR_CONSTANTS_entry (year yc : Z) :
  Cover.YEAR_CONSTANTS !! year = Some yc ->
  2014 <= year <= 2035 /\ 12 <= yc <= 237.
Proof.
  intros Hyc.
  destruct (Z_lt_le_dec year 2014) as [Hlo | Hlo];
    [rewrite YEAR_CONSTANTS_None in Hyc by lia; discriminate |].
  destruct (Z_lt_le_dec 2035 year) as [Hhi | Hhi];
    [rewrite YEAR_CONSTANTS_None in Hyc by lia; discriminate |].
  destruct (YEAR_CONSTANTS_Some year) as (yc' & Hyc' & Hb); [lia |].
  rewrite Hyc in Hyc'. injection Hyc' as ->. lia.
Qed.

(** The component's table extends the script's. *)
Lemma year_tables_agree (year : Z) :
  2014 <= year <= 2030 ->
  Cover.YEAR_CONSTANTS !! year = Calculator.yearConstants !! year.
Proof. intros Hy. enum_range year 2014 2030; reflexivity. Qed.

(** The truthiness test on a table read fails exactly on a missing key. *)
Lemma truthy_yearConstants (year : Z) :
  truthy (Calculator.yearConstants !! year) = false <->
  Calculator.yearConstants !! year = None.
Proof.
  split; [| intros ->; reflexivity].
  destruct (Calculator.yearConstants !! year) as [yc |] eqn:Hyc;
    [| reflexivity].
  apply yearConstants_entry in Hyc. simpl.
  destruct (Z.eqb_spec yc 0); [lia | discriminate].
Qed.

Lemma truthy_YEAR_CONSTANTS (year : Z) :
  truthy (Cover.YEAR_CONSTANTS !! year) = false <->
  Cover.YEAR_CONSTANTS !! year = None.
Proof.
  split; [| intros ->; reflexivity].
  destruct (Cover.YEAR_CONSTANTS !! year) as [yc |] eqn:Hyc;
    [| reflexivity].
  apply YEAR_CONSTANTS_entry in Hyc. simpl.
  destruct (Z.eqb_spec yc 0); [lia | discriminate].
Qed.

End Tables.

(** ** The three paths through [calculateKin] *)

Section Paths.

Lemma feb29_test (month day : Z) :
  (month =? 2) && (day =? 29) = false <-> (month, day) <> (2, 29).
Proof.
  split.
  - intros Hb [= -> ->]. discriminate Hb.
  - intros Hne. apply andb_false_iff.
    destruct (Z.eqb_spec month 2) as [-> |]; [| left; reflexivity].
    destruct (Z.eqb_spec day 29) as [-> |]; [| right; reflexivity].
    contradiction Hne. reflexivity.
Qed.

(** [kin - 1] is not negative after the loops, so [%] is the modulo. *)
Lemma rem_after_wrap (k n : Z) :
  1 <= k -> 0 < n ->
  rem (sub (Int k) (Int 1)) (Int n) = Int ((k - 1) mod n).
Proof.
  intros Hk Hn. simpl. destruct (Z.eqb_spec n 0); [lia |].
  rewrite Z.rem_mod_nonneg by lia. reflexivity.
Qed.

Lemma index_Some (arr : list string) (i : Z) :
  0 <= i < Z.of_nat (length arr) ->
  exists s, arr !! Z.to_nat i = Some s /\ index arr (Int i) = Str s.
Proof.
  intros Hi.
  destruct (lookup_lt_is_Some_2 arr (Z.to_nat i)) as [s Hs]; [lia |].
  exists s. split; [exact Hs |]. unfold index.
  destruct (Z.ltb_spec i 0); [lia |]. rewrite Hs. reflexivity.
Qed.

(** The script, on the path that reaches the arithmetic. *)
Lemma Calculator_computes (year month day yc : Z) :
  (month, day) <> (2, 29) ->
  Calculator.yearConstants !! year = Some yc ->
  Calculator.calculateKin year month day =
  let kin :=
    while_lt_1
      (while_gt_260
         (Calculator.leapStep year month day
            (Calculator.baseKin Calculator.globals year month day))) in
  let sealIndex := rem (sub kin (Int 1)) (Int 20) in
  let toneIndex := rem (sub kin (Int 1)) (Int 13) in
  Calculator.Return
    (Calculator.mkKinResult
       (Num kin)
       (index Calculator.sealNames sealIndex)
       (index Calculator.toneNames toneIndex)
       (Num (add sealIndex (Int 1)))
       false
       (to_string (index Calculator.toneNames toneIndex)
          +:+ to_string (index Calculator.sealNames sealIndex))).
Proof.
  intros Hne Hyc. apply feb29_test in Hne.
  unfold Calculator.calculateKin, Calculator.run_calculateKin.
  rewrite Hne.
  change (Calculator.g_yearConstants Calculator.globals)
    with Calculator.yearConstants.
  destruct (truthy (Calculator.yearConstants !! year)) eqn:Ht.
  - reflexivity.
  - apply truthy_yearConstants in Ht. congruence.
Qed.

Lemma Calculator_throws (year month day : Z) :
  (month, day) <> (2, 29) ->
  Calculator.yearConstants !! year = None ->
  Calculator.calculateKin year month day =
  Calculator.Throw
    ("年份 " +:+ num_to_string (Int year) +:+ " 的常數尚未定義").
Proof.
  intros Hne Hyc. apply feb29_test in Hne.
  unfold Calculator.calculateKin, Calculator.run_calculateKin.
  rewrite Hne.
  change (Calculator.g_yearConstants Calculator.globals)
    with Calculator.yearConstants.
  rewrite Hyc. reflexivity.
Qed.

Lemma Calculator_feb29 (year : Z) :
  Calculator.calculateKin year 2 29 =
  Calculator.Return Calculator.hunabKu.
Proof. reflexivity. Qed.

(** The component, on the same three paths. *)
Lemma Cover_computes (year month day yc : Z) :
  (month, day) <> (2, 29) ->
  Cover.YEAR_CONSTANTS !! year = Some yc ->
  Cover.calculateKin year month day =
  let kin :=
    while_lt_1
      (while_gt_260
         (Cover.leapStep year month day
            (Cover.baseKin year month day))) in
  let sealIndex := rem (sub kin (Int 1)) (Int 20) in
  let toneIndex := rem (sub kin (Int 1)) (Int 13) in
  Cover.mkKinResult
    (Num kin)
    (index Cover.SEAL_NAMES sealIndex)
    (index Cover.TONE_NAMES toneIndex)
    (Num (add sealIndex (Int 1)))
    false
    (to_string (index Cover.TONE_NAMES toneIndex)
       +:+ to_string (index Cover.SEAL_NAMES sealIndex))
    (Str ("./images/"
            +:+ padStart 2 "0" (num_to_string (add sealIndex (Int 1)))
            +:+ ".png")).
Proof.
  intros Hne Hyc. apply feb29_test in Hne.
  unfold Cover.calculateKin, Cover.run_calculateKin.
  rewrite Hne.
  destruct (truthy (Cover.YEAR_CONSTANTS !! year)) eqn:Ht.
  - reflexivity.
  - apply truthy_YEAR_CONSTANTS in Ht. congruence.
Qed.

Lemma Cover_undefined (year month day : Z) :
  (month, day) <> (2, 29) ->
  Cover.YEAR_CONSTANTS !! year = None ->
  Cover.calculateKin year month day = Cover.yearUndefined.
Proof.
  intros Hne Hyc. apply feb29_test in Hne.
  unfold Cover.calculateKin, Cover.run_calculateKin.
  rewrite Hne, Hyc. reflexivity.
Qed.

Lemma Cover_feb29 (year : Z) :
  Cover.calculateKin year 2 29 = Cover.hunabKu.
Proof. reflexivity. Qed.

(** The raw sum, when both table reads succeed. *)
Lemma Calculator_raw (year month day yc mc : Z) :
  Calculator.yearConstants !! year = Some yc ->
  Calculator.monthConstants !! month = Some mc ->
  Calculator.leapStep year month day
    (Calculator.baseKin Calculator.globals year month day) =
  Int (yc + mc + day
       + (if Calculator.leapGuard year month day then 1 else 0)).
Proof.
  intros Hyc Hmc. unfold Calculator.leapStep, Calculator.baseKin.
  change (Calculator.g_yearConstants Calculator.globals)
    with Calculator.yearConstants.
  change (Calculator.g_monthConstants Calculator.globals)
    with Calculator.monthConstants.
  rewrite Hyc, Hmc.
  destruct (Calculator.leapGuard year month day); simpl;
    f_equal; lia.
Qed.

Lemma Cover_raw (year month day yc mc : Z) :
  Cover.YEAR_CONSTANTS !! year = Some yc ->
  Cover.MONTH_CONSTANTS !! month = Some mc ->
  Cover.leapStep year month day (Cover.baseKin year month day) =
  Int (yc + mc + day
       + (if Cover.leapGuard year month day then 1 else 0)).
Proof.
  intros Hyc Hmc. unfold Cover.leapStep, Cover.baseKin.
  rewrite Hyc, Hmc.
  destruct (Cover.leapGuard year month day); simpl; f_equal; lia.
Qed.

End Paths.

(** ** The code against the arithmetic of the specification *)

Section CodeAgainstSpec.

Lemma rem_zero_mod_zero (a b : Z) :
  b <> 0 -> (Z.rem a b =? 0) = (a mod b =? 0).
Proof.
  intros Hb. apply eq_true_iff_eq.
  rewrite !Z.eqb_eq, Z.rem_divide, Z.mod_divide by exact Hb.
  reflexivity.
Qed.

Lemma isLeapYear_leapYear (year : Z) :
  Calculator.isLeapYear year = true <-> Spec.leapYear year.
Proof.
  unfold Calculator.isLeapYear, Spec.leapYear.
  rewrite !rem_zero_mod_zero by lia.
  rewrite orb_true_iff, andb_true_iff, negb_true_iff.
  rewrite !Z.eqb_eq, Z.eqb_neq. reflexivity.
Qed.

Lemma isLeapYear_same (year : Z) :
  Cover.isLeapYear year = Calculator.isLeapYear year.
Proof. reflexivity. Qed.

Lemma guard_afterFeb28 (month day : Z) :
  (month >? 2) || ((month =? 2) && (day >? 28)) = true <->
  Spec.afterFeb28 month day.
Proof.
  unfold Spec.afterFeb28.
  rewrite orb_true_iff, andb_true_iff, Z.eqb_eq.
  rewrite !Z.gtb_ltb, !Z.ltb_lt. reflexivity.
Qed.

Lemma leapGuard_leapAdjustment (year month day : Z) :
  (if Calculator.leapGuard year month day then 1 else 0) =
  Spec.leapAdjustment year month day.
Proof.
  unfold Spec.leapAdjustment, Calculator.leapGuard.
  destruct (decide (Spec.leapYear year /\ Spec.afterFeb28 month day))
    as [[Hl Ha] | Hn].
  - apply isLeapYear_leapYear in Hl. apply guard_afterFeb28 in Ha.
    rewrite Hl, Ha. reflexivity.
  - destruct (Calculator.isLeapYear year) eqn:Hl; [| reflexivity].
    destruct ((month >? 2) || ((month =? 2) && (day >? 28))) eqn:Ha;
      [| reflexivity].
    exfalso. apply Hn. split.
    + apply isLeapYear_leapYear. exact Hl.
    + apply guard_afterFeb28. exact Ha.
Qed.

Lemma Cover_leapGuard_same (year month day : Z) :
  Cover.leapGuard year month day = Calculator.leapGuard year month day.
Proof. reflexivity. Qed.

(** The kin of the script on a supported year and a month of the
    table. *)
Lemma Calculator_kin (year month day yc mc : Z) :
  (month, day) <> (2, 29) ->
  Calculator.yearConstants !! year = Some yc ->
  Calculator.monthConstants !! month = Some mc ->
  exists r,
    Calculator.calculateKin year month day = Calculator.Return r /\
    Calculator.kin r =
    Num (Int (Spec.wrap
                (yc + mc + day + Spec.leapAdjustment year month day))) /\
    Calculator.isHunabKu r = false.
Proof.
  intros Hne Hyc Hmc.
  rewrite (Calculator_computes year month day yc Hne Hyc).
  rewrite (Calculator_raw year month day yc mc Hyc Hmc).
  rewrite loops_wrap, leapGuard_leapAdjustment.
  eexists. split; [reflexivity |]. split; reflexivity.
Qed.

Lemma Cover_kin (year month day yc mc : Z) :
  (month, day) <> (2, 29) ->
  Cover.YEAR_CONSTANTS !! year = Some yc ->
  Cover.MONTH_CONSTANTS !! month = Some mc ->
  Cover.kin (Cover.calculateKin year month day) =
  Num (Int (Spec.wrap
              (yc + mc + day + Spec.leapAdjustment year month day))) /\
  Cover.isHunabKu (Cover.calculateKin year month day) = false.
Proof.
  intros Hne Hyc Hmc.
  rewrite (Cover_computes year month day yc Hne Hyc).
  rewrite (Cover_raw year month day yc mc Hyc Hmc).
  rewrite loops_wrap, Cover_leapGuard_same, leapGuard_leapAdjustment.
  split; reflexivity.
Qed.

End CodeAgainstSpec.

(** * The claims of the specification *)

(** C1.  For every year listed in the year table, every month from 1 to 12
    and every valid day (from 1 to 31, as the contract of the function has
    it), the date not being February 29, [calculateKin] returns the kin
    [((raw - 1) mod 260) + 1], on the non-negative modulo, where [raw]
    is the year constant plus the month constant plus the day plus the leap
    adjustment.  The kin is an integer between 1 and 260; a raw sum of 260
    gives kin 260 and a raw sum of 261 gives kin 1.  This holds in the
    script and in the component. *)
Theorem C1_kin_wraps_raw_sum (year month day : Z) :
  1 <= month <= 12 ->
  1 <= day <= 31 ->
  (month, day) <> (2, 29) ->
  (forall yc : Z,
      Calculator.yearConstants !! year = Some yc ->
      exists (mc : Z) (r : Calculator.KinResult) (k : Z),
        Calculator.monthConstants !! month = Some mc /\
        Calculator.calculateKin year month day = Calculator.Return r /\
        Calculator.kin r = Num (Int k) /\
        let raw := yc + mc + day + Spec.leapAdjustment year month day in
        k = (raw - 1) mod 260 + 1 /\
        1 <= k <= 260 /\
        (raw = 260 -> k = 260) /\
        (raw = 261 -> k = 1))
  /\
  (forall yc : Z,
      Cover.YEAR_CONSTANTS !! year = Some yc ->
      exists (mc k : Z),
        Cover.MONTH_CONSTANTS !! month = Some mc /\
        Cover.kin (Cover.calculateKin year month day) = Num (Int k) /\
        let raw := yc + mc + day + Spec.leapAdjustment year month day in
        k = (raw - 1) mod 260 + 1 /\
        1 <= k <= 260 /\
        (raw = 260 -> k = 260) /\
        (raw = 261 -> k = 1)).
Proof.
  intros Hm _ Hne.
  destruct (monthConstants_Some month Hm) as (mc & Hmc & _).
  split; intros yc Hyc.
  - destruct (Calculator_kin year month day yc mc Hne Hyc Hmc)
      as (r & Hr & Hk & _).
    exists mc, r. eexists. repeat split; try eassumption.
    + apply wrap_range.
    + apply wrap_range.
    + intros ->. reflexivity.
    + intros ->. reflexivity.
  - destruct (Cover_kin year month day yc mc Hne Hyc Hmc) as [Hk _].
    exists mc. eexists. repeat split; try eassumption.
    + apply wrap_range.
    + apply wrap_range.
    + intros ->. reflexivity.
    + intros ->. reflexivity.
Qed.

(** C1 at 7 February 2018, where the raw sum is 222 + 31 + 7 = 260. *)
Lemma C1_kin_wraps_raw_sum_witness :
  exists r : Calculator.KinResult,
    Calculator.calculateKin 2018 2 7 = Calculator.Return r /\
    Calculator.kin r = Num (Int 260).
Proof.
  destruct (C1_kin_wraps_raw_sum 2018 2 7) as [HC _].
  - lia.
  - lia.
  - discriminate.
  - destruct (HC 222 eq_refl) as (mc & r & k & Hmc & Hr & Hk & Hw & _).
    exists r. split; [exact Hr |].
    injection Hmc as <-. rewrite Hk, Hw. reflexivity.
Defined.

(** C2.  For every year, in the table or not, leap or not,
    [calculateKin(year, 2, 29)] returns the Hunab Ku result: [isHunabKu]
    is true and [kin], [seal] and [tone] are null.  The result does not
    depend on the contents of the tables, which are not read, and the
    component writes nothing to the console. *)
Theorem C2_feb29_is_hunabKu (year : Z) :
  (Calculator.calculateKin year 2 29 = Calculator.Return Calculator.hunabKu
   /\ Calculator.isHunabKu Calculator.hunabKu = true
   /\ Calculator.kin Calculator.hunabKu = Null
   /\ Calculator.seal Calculator.hunabKu = Null
   /\ Calculator.tone Calculator.hunabKu = Null
   /\ forall G : Calculator.Globals,
       Calculator.run_calculateKin year 2 29 G =
       (Calculator.Return Calculator.hunabKu, G))
  /\
  (Cover.calculateKin year 2 29 = Cover.hunabKu
   /\ Cover.isHunabKu Cover.hunabKu = true
   /\ Cover.kin Cover.hunabKu = Null
   /\ Cover.seal Cover.hunabKu = Null
   /\ Cover.tone Cover.hunabKu = Null
   /\ forall console : list string,
       Cover.run_calculateKin year 2 29 console = (Cover.hunabKu, console)).
Proof.
  split.
  - split; [apply Calculator_feb29 |].
    repeat split; reflexivity.
  - split; [apply Cover_feb29 |].
    repeat split; reflexivity.
Qed.

(** C3.  For every date other than February 29 whose year has no entry in
    the year table, [calculateKin] signals the unsupported year and returns
    no numeric kin.  The script throws, so it returns nothing.  The
    component returns the failure record, whose [kin] is null and whose
    [isHunabKu] is false; no other path returns that record: the Hunab Ku
    record has [isHunabKu] true, and the record of a supported year has a
    number for [kin]. *)
Theorem C3_unsupported_year (year month day : Z) :
  (month, day) <> (2, 29) ->
  (Calculator.yearConstants !! year = None ->
   Calculator.calculateKin year month day =
   Calculator.Throw
     ("年份 " +:+ num_to_string (Int year) +:+ " 的常數尚未定義")
   /\ forall r, Calculator.calculateKin year month day
                <> Calculator.Return r)
  /\
  (Cover.YEAR_CONSTANTS !! year = None ->
   Cover.calculateKin year month day = Cover.yearUndefined
   /\ Cover.kin Cover.yearUndefined = Null
   /\ Cover.isHunabKu Cover.yearUndefined = false
   /\ (forall year' : Z,
         Cover.calculateKin year' 2 29 <> Cover.yearUndefined)
   /\ (forall year' month' day' : Z,
         (month', day') <> (2, 29) ->
         is_Some (Cover.YEAR_CONSTANTS !! year') ->
         exists n : num,
           Cover.kin (Cover.calculateKin year' month' day') = Num n)).
Proof.
  intros Hne. split; intros Hyc.
  - rewrite (Calculator_throws year month day Hne Hyc).
    split; [reflexivity | discriminate].
  - split; [apply Cover_undefined; assumption |].
    split; [reflexivity |]. split; [reflexivity |]. split.
    + intros year'. rewrite Cover_feb29. discriminate.
    + intros year' month' day' Hne' [yc' Hyc'].
      rewrite (Cover_computes year' month' day' yc' Hne' Hyc').
      eexists. reflexivity.
Qed.

(** C3 at 1 January 1899. *)
Lemma C3_unsupported_year_witness :
  Calculator.calculateKin 1899 1 1 =
  Calculator.Throw "年份 1899 的常數尚未定義"
  /\ Cover.calculateKin 1899 1 1 = Cover.yearUndefined.
Proof.
  destruct (C3_unsupported_year 1899 1 1) as [HC HV].
  - discriminate.
  - split.
    + apply (HC eq_refl).
    + apply (HV eq_refl).
Defined.

(** C4.  In a supported year that satisfies the proleptic Gregorian leap
    rule, the leap statement of the script adds exactly 1 to the raw sum
    for the dates strictly after February 28 (month above 2, or month 2 and
    day above 28) and adds nothing otherwise, and the kin returned for a
    date that reaches the arithmetic is the wrap-around of the sum so
    adjusted.  With the constants 72 for 2024, 31 for February and 59 for
    March, the kins of 1 March 2024 and 28 February 2024 differ by 2
    modulo 260. *)
Theorem C4_leap_adjustment :
  (forall year month day yc mc : Z,
      Calculator.yearConstants !! year = Some yc ->
      Calculator.monthConstants !! month = Some mc ->
      (year mod 4 = 0 /\ year mod 100 <> 0) \/ year mod 400 = 0 ->
      Calculator.isLeapYear year = true /\
      (2 < month \/ (month = 2 /\ 28 < day) ->
       forall z : Z,
         Calculator.leapStep year month day (Int z) = Int (z + 1)) /\
      (~ (2 < month \/ (month = 2 /\ 28 < day)) ->
       forall kin : num,
         Calculator.leapStep year month day kin = kin) /\
      ((month, day) <> (2, 29) ->
       exists r : Calculator.KinResult,
         Calculator.calculateKin year month day = Calculator.Return r /\
         Calculator.kin r =
         Num (Int (Spec.wrap
                     (yc + mc + day
                      + (if decide (2 < month \/ (month = 2 /\ 28 < day))
                         then 1 else 0))))))
  /\
  (Calculator.yearConstants !! 2024 = Some 72 /\
   Calculator.monthConstants !! 2 = Some 31 /\
   Calculator.monthConstants !! 3 = Some 59 /\
   exists (r3 r2 : Calculator.KinResult) (k3 k2 : Z),
     Calculator.calculateKin 2024 3 1 = Calculator.Return r3 /\
     Calculator.calculateKin 2024 2 28 = Calculator.Return r2 /\
     Calculator.kin r3 = Num (Int k3) /\
     Calculator.kin r2 = Num (Int k2) /\
     (k3 - k2) mod 260 = 2).
Proof.
  split.
  - intros year month day yc mc Hyc Hmc Hleap.
    assert (Hl : Calculator.isLeapYear year = true)
      by (apply isLeapYear_leapYear; exact Hleap).
    assert (Hyes : 2 < month \/ (month = 2 /\ 28 < day) ->
                   Calculator.leapGuard year month day = true).
    { intros Ha. unfold Calculator.leapGuard. rewrite Hl.
      apply guard_afterFeb28. exact Ha. }
    assert (Hno : ~ (2 < month \/ (month = 2 /\ 28 < day)) ->
                  Calculator.leapGuard year month day = false).
    { intros Ha. unfold Calculator.leapGuard. rewrite Hl. simpl.
      apply not_true_is_false. intros Hb. apply Ha.
      apply guard_afterFeb28. exact Hb. }
    split; [exact Hl |]. split; [| split].
    + intros Ha z. unfold Calculator.leapStep. rewrite (Hyes Ha).
      reflexivity.
    + intros Ha kin. unfold Calculator.leapStep. rewrite (Hno Ha).
      reflexivity.
    + intros Hne.
      rewrite (Calculator_computes year month day yc Hne Hyc).
      rewrite (Calculator_raw year month day yc mc Hyc Hmc).
      rewrite loops_wrap. eexists. split; [reflexivity |].
      destruct (decide (2 < month \/ (month = 2 /\ 28 < day))) as [Ha | Ha].
      * rewrite (Hyes Ha). reflexivity.
      * rewrite (Hno Ha). reflexivity.
  - repeat (split; [reflexivity |]).
    do 2 eexists. exists 133, 131.
    repeat (split; [vm_compute; reflexivity |]). reflexivity.
Qed.

(** C4 at 1 March 2024: the raw sum 72 + 59 + 1 gets 1 more, kin 133. *)
Lemma C4_leap_adjustment_witness :
  Calculator.leapStep 2024 3 1 (Int 132) = Int 133 /\
  exists r : Calculator.KinResult,
    Calculator.calculateKin 2024 3 1 = Calculator.Return r /\
    Calculator.kin r = Num (Int 133).
Proof.
  destruct C4_leap_adjustment as [HC _].
  destruct (HC 2024 3 1 72 59) as (_ & Hafter & _ & Hkin).
  - reflexivity.
  - reflexivity.
  - left. split; [reflexivity | discriminate].
  - split.
    + apply Hafter. left. lia.
    + destruct Hkin as (r & Hr & Hk); [discriminate |].
      exists r. split; [exact Hr | exact Hk].
Defined.

(** The shape of what the script returns: the Hunab Ku object, or an
    object whose seal, tone and text are read off its kin. *)
Lemma Calculator_returns (year month day : Z) (r : Calculator.KinResult) :
  Calculator.calculateKin year month day = Calculator.Return r ->
  r = Calculator.hunabKu \/
  (Calculator.isHunabKu r = false /\
   exists kin : num,
     Calculator.kin r = Num kin /\
     kin = while_lt_1
             (while_gt_260
                (Calculator.leapStep year month day
                   (Calculator.baseKin Calculator.globals year month day)))
     /\
     Calculator.seal r =
     index Calculator.sealNames (rem (sub kin (Int 1)) (Int 20)) /\
     Calculator.tone r =
     index Calculator.toneNames (rem (sub kin (Int 1)) (Int 13)) /\
     Calculator.displayText r =
     to_string (Calculator.tone r) +:+ to_string (Calculator.seal r)).
Proof.
  intros Hr.
  destruct (decide ((month, day) = (2, 29))) as [[= -> ->] | Hne].
  - rewrite Calculator_feb29 in Hr. injection Hr as <-. left. reflexivity.
  - destruct (Calculator.yearConstants !! year) as [yc |] eqn:Hyc.
    + rewrite (Calculator_computes year month day yc Hne Hyc) in Hr.
      injection Hr as <-. right. split; [reflexivity |].
      eexists. repeat split; reflexivity.
    + rewrite (Calculator_throws year month day Hne Hyc) in Hr.
      discriminate.
Qed.

(** C5.  For every normal result of the script (returned, and not the
    Hunab Ku object), the seal is [sealNames[(kin - 1) % 20]], the tone is
    [toneNames[(kin - 1) % 13]] and the text is the tone followed by the
    seal.  When the month is one of the twelve, the kin is an integer from
    1 to 260, [%] is the modulo and both names are entries of the tables.
    Two calls that return the same kin return the same seal and the same
    tone. *)
Theorem C5_seal_and_tone_from_kin
    (year month day : Z) (r : Calculator.KinResult) :
  Calculator.calculateKin year month day = Calculator.Return r ->
  Calculator.isHunabKu r = false ->
  (exists kin : num,
      Calculator.kin r = Num kin /\
      Calculator.seal r =
      index Calculator.sealNames (rem (sub kin (Int 1)) (Int 20)) /\
      Calculator.tone r =
      index Calculator.toneNames (rem (sub kin (Int 1)) (Int 13)) /\
      Calculator.displayText r =
      to_string (Calculator.tone r) +:+ to_string (Calculator.seal r))
  /\
  (1 <= month <= 12 ->
   exists (k : Z) (s t : string),
     Calculator.kin r = Num (Int k) /\
     1 <= k <= 260 /\
     Calculator.sealNames !! Z.to_nat ((k - 1) mod 20) = Some s /\
     Calculator.seal r = Str s /\
     Calculator.toneNames !! Z.to_nat ((k - 1) mod 13) = Some t /\
     Calculator.tone r = Str t /\
     Calculator.displayText r = t +:+ s)
  /\
  (forall (year' month' day' : Z) (r' : Calculator.KinResult),
      Calculator.calculateKin year' month' day' = Calculator.Return r' ->
      Calculator.kin r' = Calculator.kin r ->
      Calculator.seal r' = Calculator.seal r /\
      Calculator.tone r' = Calculator.tone r).
Proof.
  intros Hr Hh.
  destruct (Calculator_returns year month day r Hr)
    as [-> | (_ & kin & Hk & Hkin & Hs & Ht & Hd)]; [discriminate Hh |].
  split; [| split].
  - exists kin. repeat split; assumption.
  - intros Hm.
    destruct (monthConstants_Some month Hm) as (mc & Hmc & _).
    destruct (Calculator.yearConstants !! year) as [yc |] eqn:Hyc.
    + rewrite (Calculator_raw year month day yc mc Hyc Hmc) in Hkin.
      rewrite loops_wrap in Hkin.
      set (k := (yc + mc + day
                 + (if Calculator.leapGuard year month day then 1 else 0)
                 - 1) mod 260 + 1) in Hkin.
      assert (Hrange : 1 <= k <= 260) by apply wrap_range.
      subst kin. rewrite rem_after_wrap in Hs, Ht by lia.
      destruct (index_Some Calculator.sealNames ((k - 1) mod 20))
        as (s & Hls & His).
      { pose proof (Z.mod_pos_bound (k - 1) 20). simpl. lia. }
      destruct (index_Some Calculator.toneNames ((k - 1) mod 13))
        as (t & Hlt & Hit).
      { pose proof (Z.mod_pos_bound (k - 1) 13). simpl. lia. }
      exists k, s, t. rewrite His in Hs. rewrite Hit in Ht.
      repeat split; try assumption; try lia.
      rewrite Hd, Hs, Ht. reflexivity.
    + exfalso.
      destruct (decide ((month, day) = (2, 29))) as [[= -> ->] | Hne].
      * rewrite Calculator_feb29 in Hr. injection Hr as <-.
        discriminate Hh.
      * rewrite (Calculator_throws year month day Hne Hyc) in Hr.
        discriminate Hr.
  - intros year' month' day' r' Hr' Hsame.
    destruct (Calculator_returns year' month' day' r' Hr')
      as [-> | (_ & kin' & Hk' & _ & Hs' & Ht' & _)].
    + rewrite Hk in Hsame. discriminate Hsame.
    + rewrite Hk, Hk' in Hsame. injection Hsame as ->.
      rewrite Hs, Hs', Ht, Ht'. split; reflexivity.
Qed.

(** C5 at 6 January 2026 and 23 September 2026, which both have kin 28. *)
Lemma C5_seal_and_tone_from_kin_witness :
  exists r r' : Calculator.KinResult,
    Calculator.calculateKin 2026 1 6 = Calculator.Return r /\
    Calculator.calculateKin 2026 9 23 = Calculator.Return r' /\
    Calculator.displayText r = "月亮的" +:+ "黃星星" /\
    Calculator.seal r' = Calculator.seal r /\
    Calculator.tone r' = Calculator.tone r.
Proof.
  eexists. eexists.
  split; [vm_compute; reflexivity |].
  split; [vm_compute; reflexivity |].
  edestruct (C5_seal_and_tone_from_kin 2026 1 6) as (_ & Hnames & Hsame).
  - vm_compute. reflexivity.
  - reflexivity.
  - split; [reflexivity |].
    apply (Hsame 2026 9 23).
    + vm_compute. reflexivity.
    + reflexivity.
Defined.

(** C6.  [calculateKin(2026, 1, 6)] returns a normal result: the raw sum
    is 22 + 0 + 6 = 28, 2026 is not a leap year, so nothing is added and
    the kin is 28; the seal index is 7, the seal "黃星星"; the tone index
    is 1, the tone "月亮的"; the text is "月亮的黃星星". *)
Theorem C6_kin_of_2026_01_06 :
  Calculator.yearConstants !! 2026 = Some 22 /\
  Calculator.monthConstants !! 1 = Some 0 /\
  Calculator.baseKin Calculator.globals 2026 1 6 = Int (22 + 0 + 6) /\
  Calculator.isLeapYear 2026 = false /\
  Calculator.leapStep 2026 1 6 (Int 28) = Int 28 /\
  rem (sub (Int 28) (Int 1)) (Int 20) = Int 7 /\
  Calculator.sealNames !! 7%nat = Some "黃星星" /\
  rem (sub (Int 28) (Int 1)) (Int 13) = Int 1 /\
  Calculator.toneNames !! 1%nat = Some "月亮的" /\
  Calculator.calculateKin 2026 1 6 =
  Calculator.Return
    (Calculator.mkKinResult (Num (Int 28)) (Str "黃星星") (Str "月亮的")
                            (Num (Int 8)) false "月亮的黃星星").
Proof.
  repeat (split; [vm_compute; reflexivity |]).
  vm_compute. reflexivity.
Qed.

(** C7.  The script's [calculateKin] is deterministic and leaves the four
    tables as it found them: whatever the tables hold, a call hands them
    back unchanged, and a second call with the same arguments, run after
    the first, completes the same way (same returned object, or same
    thrown error) and again leaves the tables unchanged. *)
Theorem C7_deterministic_and_read_only
    (year month day : Z) (G : Calculator.Globals) :
  snd (Calculator.run_calculateKin year month day G) = G /\
  (let (first, G1) := Calculator.run_calculateKin year month day G in
   let (second, G2) := Calculator.run_calculateKin year month day G1 in
   first = second /\ G2 = G) /\
  (let (first, G1) :=
     Calculator.run_calculateKin year month day Calculator.globals in
   let (second, G2) := Calculator.run_calculateKin year month day G1 in
   first = Calculator.calculateKin year month day /\
   second = Calculator.calculateKin year month day /\
   Calculator.g_monthConstants G2 = Calculator.monthConstants /\
   Calculator.g_yearConstants G2 = Calculator.yearConstants /\
   Calculator.g_sealNames G2 = Calculator.sealNames /\
   Calculator.g_toneNames G2 = Calculator.toneNames).
Proof.
  assert (Hsnd : forall G',
             snd (Calculator.run_calculateKin year month day G') = G').
  { intros G'. unfold Calculator.run_calculateKin.
    destruct ((month =? 2) && (day =? 29)); [reflexivity |].
    destruct (negb (truthy (Calculator.g_yearConstants G' !! year)));
      reflexivity. }
  split; [apply Hsnd |]. split.
  - pose proof (Hsnd G) as H1.
    destruct (Calculator.run_calculateKin year month day G)
      as [first G1] eqn:E1.
    simpl in H1. subst G1. rewrite E1. split; reflexivity.
  - pose proof (Hsnd Calculator.globals) as H1.
    unfold Calculator.calculateKin.
    destruct (Calculator.run_calculateKin year month day Calculator.globals)
      as [first G1] eqn:E1.
    simpl in H1. subst G1. rewrite E1. repeat split; reflexivity.
Qed.

(** C8.  When the day is a valid day of February (at most 29 when the
    month is 2), the disjunct [month === 2 && day > 28] of the leap guard
    is false on every execution that gets past the Hunab Ku test: with
    month 2 the day is then at most 28, the guard equals
    [isLeapYear(year) && month > 2], and the adjustment is made only when
    the month is above 2.  This holds in the script and in the
    component. *)
Theorem C8_february_disjunct_is_dead (year month day : Z) :
  (month = 2 -> day <= 29) ->
  (Calculator.calculateKin year month day
   <> Calculator.Return Calculator.hunabKu ->
   (month = 2 -> day <= 28) /\
   (month =? 2) && (day >? 28) = false /\
   Calculator.leapGuard year month day =
   Calculator.isLeapYear year && (month >? 2) /\
   (forall kin : num,
       Calculator.leapStep year month day kin <> kin -> 2 < month))
  /\
  (Cover.calculateKin year month day <> Cover.hunabKu ->
   (month = 2 -> day <= 28) /\
   (month =? 2) && (day >? 28) = false /\
   Cover.leapGuard year month day =
   Cover.isLeapYear year && (month >? 2) /\
   (forall kin : num,
       Cover.leapStep year month day kin <> kin -> 2 < month)).
Proof.
  intros Hfeb.
  assert (Hdead : (month, day) <> (2, 29) ->
                  (month = 2 -> day <= 28) /\
                  (month =? 2) && (day >? 28) = false /\
                  Calculator.leapGuard year month day =
                  Calculator.isLeapYear year && (month >? 2) /\
                  (forall kin : num,
                      Calculator.leapStep year month day kin <> kin ->
                      2 < month)).
  { intros Hne.
    assert (H28 : month = 2 -> day <= 28).
    { intros ->. specialize (Hfeb eq_refl).
      destruct (Z.eq_dec day 29) as [-> | ?]; [| lia].
      contradiction Hne. reflexivity. }
    assert (Hd : (month =? 2) && (day >? 28) = false).
    { destruct (Z.eqb_spec month 2) as [Hm |]; [| reflexivity].
      specialize (H28 Hm). simpl. rewrite Z.gtb_ltb.
      apply Z.ltb_ge. exact H28. }
    assert (Hg : Calculator.leapGuard year month day =
                 Calculator.isLeapYear year && (month >? 2)).
    { unfold Calculator.leapGuard. rewrite Hd, orb_false_r.
      reflexivity. }
    repeat split; try assumption.
    intros kin Hstep. unfold Calculator.leapStep in Hstep.
    rewrite Hg in Hstep.
    destruct (Calculator.isLeapYear year); simpl in Hstep;
      [| contradiction Hstep; reflexivity].
    destruct (month >? 2) eqn:Hgt;
      [| contradiction Hstep; reflexivity].
    rewrite Z.gtb_ltb in Hgt. apply Z.ltb_lt. exact Hgt. }
  split; intros Hpast; apply Hdead; intros [= -> ->]; apply Hpast.
  - apply Calculator_feb29.
  - apply Cover_feb29.
Qed.

(** C8 at 28 February 2024, a leap year: the guard is false. *)
Lemma C8_february_disjunct_is_dead_witness :
  Calculator.leapGuard 2024 2 28 = false /\
  Cover.leapGuard 2024 2 28 = false.
Proof.
  destruct (C8_february_disjunct_is_dead 2024 2 28) as [HC HV].
  - intros _. lia.
  - split.
    + destruct HC as (_ & _ & Hg & _).
      * vm_compute. discriminate.
      * rewrite Hg. reflexivity.
    + destruct HV as (_ & _ & Hg & _).
      * vm_compute. discriminate.
      * rewrite Hg. reflexivity.
Defined.

(** The arithmetic of the two copies is the same wherever the two year
    tables have the same entry. *)
Lemma Cover_arithmetic_same (year month day : Z) :
  Cover.YEAR_CONSTANTS !! year = Calculator.yearConstants !! year ->
  Cover.leapStep year month day (Cover.baseKin year month day) =
  Calculator.leapStep year month day
    (Calculator.baseKin Calculator.globals year month day).
Proof.
  intros Hsame. unfold Cover.leapStep, Calculator.leapStep.
  rewrite Cover_leapGuard_same.
  unfold Cover.baseKin, Calculator.baseKin. rewrite Hsame.
  reflexivity.
Qed.

(** C9, as stated, fails on 29 February 2032, a date of one of the years
    that only the component's table has: the script does not signal an
    unsupported year there and the component does not return a normal
    result; both return the Hunab Ku object. *)
Lemma C9_extra_years_feb29_counterexample :
  Calculator.yearConstants !! 2032 = None /\
  Cover.YEAR_CONSTANTS !! 2032 = Some 132 /\
  Calculator.calculateKin 2032 2 29 =
  Calculator.Return Calculator.hunabKu /\
  Cover.calculateKin 2032 2 29 = Cover.hunabKu /\
  ~ (forall year month day : Z,
        2031 <= year <= 2035 ->
        (exists message : string,
            Calculator.calculateKin year month day =
            Calculator.Throw message) /\
        Cover.isHunabKu (Cover.calculateKin year month day) = false).
Proof.
  repeat (split; [reflexivity |]).
  intros Hclaim.
  destruct (Hclaim 2032 2 29) as [[message Hthrow] _]; [lia |].
  discriminate Hthrow.
Qed.

(** C9, amended.  For every year from 2014 to 2030 and every month and
    day, the script returns, and its result has the same kin, seal, tone,
    [sealNumber], [isHunabKu] and text as the component's.  Every entry of
    the script's year table is an entry of the component's, which has
    entries for exactly 2031 to 2035 besides.  In those five years, for
    every date other than February 29, the script throws and the component
    returns a normal result, with a number for its kin (an integer from 1
    to 260 when the month is one of the twelve); on February 29 both
    return the Hunab Ku object. *)
Theorem C9_two_copies_agree :
  (forall year month day : Z,
      2014 <= year <= 2030 ->
      exists r : Calculator.KinResult,
        Calculator.calculateKin year month day = Calculator.Return r /\
        Calculator.kin r = Cover.kin (Cover.calculateKin year month day) /\
        Calculator.seal r = Cover.seal (Cover.calculateKin year month day) /\
        Calculator.tone r = Cover.tone (Cover.calculateKin year month day) /\
        Calculator.sealNumber r =
        Cover.sealNumber (Cover.calculateKin year month day) /\
        Calculator.isHunabKu r =
        Cover.isHunabKu (Cover.calculateKin year month day) /\
        Calculator.displayText r =
        Cover.displayText (Cover.calculateKin year month day))
  /\
  (forall year yc : Z,
      Calculator.yearConstants !! year = Some yc ->
      Cover.YEAR_CONSTANTS !! year = Some yc)
  /\
  (forall year : Z,
      2031 <= year <= 2035 <->
      Calculator.yearConstants !! year = None /\
      is_Some (Cover.YEAR_CONSTANTS !! year))
  /\
  (forall year month day : Z,
      2031 <= year <= 2035 ->
      (month, day) <> (2, 29) ->
      (exists message : string,
          Calculator.calculateKin year month day =
          Calculator.Throw message) /\
      Cover.calculateKin year month day <> Cover.yearUndefined /\
      Cover.isHunabKu (Cover.calculateKin year month day) = false /\
      (exists n : num,
          Cover.kin (Cover.calculateKin year month day) = Num n) /\
      (1 <= month <= 12 ->
       exists k : Z,
         Cover.kin (Cover.calculateKin year month day) = Num (Int k) /\
         1 <= k <= 260))
  /\
  (forall year : Z,
      2031 <= year <= 2035 ->
      Calculator.calculateKin year 2 29 =
      Calculator.Return Calculator.hunabKu /\
      Cover.calculateKin year 2 29 = Cover.hunabKu).
Proof.
  split; [| split; [| split; [| split]]].
  - intros year month day Hy.
    destruct (decide ((month, day) = (2, 29))) as [[= -> ->] | Hne].
    + exists Calculator.hunabKu. rewrite Cover_feb29.
      split; [apply Calculator_feb29 |]. repeat split; reflexivity.
    + destruct (yearConstants_Some year Hy) as (yc & Hyc & _).
      pose proof (year_tables_agree year Hy) as Hsame.
      assert (Hyc' : Cover.YEAR_CONSTANTS !! year = Some yc)
        by (rewrite Hsame; exact Hyc).
      rewrite (Calculator_computes year month day yc Hne Hyc).
      rewrite (Cover_computes year month day yc Hne Hyc').
      rewrite (Cover_arithmetic_same year month day Hsame).
      eexists. split; [reflexivity |]. repeat split; reflexivity.
  - intros year yc Hyc.
    destruct (yearConstants_entry year yc Hyc) as [Hy _].
    rewrite year_tables_agree by exact Hy. exact Hyc.
  - intros year. split.
    + intros Hy. split.
      * apply yearConstants_None. lia.
      * destruct (YEAR_CONSTANTS_Some year) as (yc & Hyc & _); [lia |].
        exists yc. exact Hyc.
    + intros [Hnone [yc Hyc]].
      apply YEAR_CONSTANTS_entry in Hyc. destruct Hyc as [Hy _].
      destruct (Z_le_gt_dec year 2030) as [Hle | Hgt]; [| lia].
      destruct (yearConstants_Some year) as (yc' & Hyc' & _); [lia |].
      congruence.
  - intros year month day Hy Hne.
    destruct (YEAR_CONSTANTS_Some year) as (yc & Hyc & _); [lia |].
    split; [| split; [| split; [| split]]].
    + eexists. apply Calculator_throws; [exact Hne |].
      apply yearConstants_None. lia.
    + rewrite (Cover_computes year month day yc Hne Hyc). discriminate.
    + rewrite (Cover_computes year month day yc Hne Hyc). reflexivity.
    + rewrite (Cover_computes year month day yc Hne Hyc).
      eexists. reflexivity.
    + intros Hm.
      destruct (monthConstants_Some month Hm) as (mc & Hmc & _).
      destruct (Cover_kin year month day yc mc Hne Hyc Hmc) as [Hk _].
      eexists. split; [exact Hk |]. apply wrap_range.
  - intros year _. split; [apply Calculator_feb29 | apply Cover_feb29].
Qed.

(** C9 at 6 January 2026, where both copies give kin 28, and at
    1 March 2032, where the script throws and the component gives a
    kin. *)
Lemma C9_two_copies_agree_witness :
  (exists r : Calculator.KinResult,
      Calculator.calculateKin 2026 1 6 = Calculator.Return r /\
      Calculator.kin r = Cover.kin (Cover.calculateKin 2026 1 6)) /\
  (exists message : string,
      Calculator.calculateKin 2032 3 1 = Calculator.Throw message) /\
  Cover.isHunabKu (Cover.calculateKin 2032 3 1) = false.
Proof.
  destruct C9_two_copies_agree as (Hsame & _ & _ & Hextra & _).
  split.
  - destruct (Hsame 2026 1 6) as (r & Hr & Hk & _); [lia |].
    exists r. split; [exact Hr | exact Hk].
  - destruct (Hextra 2032 3 1) as (Hthrow & _ & Hh & _).
    + lia.
    + discriminate.
    + split; [exact Hthrow | exact Hh].
Defined.

(** A zero entry would be read as a missing one by the truthiness test;
    the tables have none. *)
Lemma truthy_zero_entry : truthy (Some 0) = false.
Proof. reflexivity. Qed.

(** C10.  Every value of the two year tables is an integer between 12 and
    237, so it is not zero, and the test [!yearConstants[year]] holds
    exactly when the year has no entry.  In [calculateKin], on a date
    other than February 29, the unsupported-year branch is taken if and
    only if the year has no entry: the script throws exactly then, and the
    component returns its failure record exactly then. *)
Theorem C10_truthiness_is_absence :
  (forall year yc : Z,
      Calculator.yearConstants !! year = Some yc ->
      12 <= yc <= 237 /\ yc <> 0)
  /\
  (forall year yc : Z,
      Cover.YEAR_CONSTANTS !! year = Some yc ->
      12 <= yc <= 237 /\ yc <> 0)
  /\
  (forall year : Z,
      negb (truthy (Calculator.yearConstants !! year)) = true <->
      Calculator.yearConstants !! year = None)
  /\
  (forall year : Z,
      negb (truthy (Cover.YEAR_CONSTANTS !! year)) = true <->
      Cover.YEAR_CONSTANTS !! year = None)
  /\
  (forall year month day : Z,
      (month, day) <> (2, 29) ->
      ((exists message : string,
           Calculator.calculateKin year month day =
           Calculator.Throw message) <->
       Calculator.yearConstants !! year = None) /\
      (Cover.calculateKin year month day = Cover.yearUndefined <->
       Cover.YEAR_CONSTANTS !! year = None)).
Proof.
  split; [| split; [| split; [| split]]].
  - intros year yc Hyc. apply yearConstants_entry in Hyc. lia.
  - intros year yc Hyc. apply YEAR_CONSTANTS_entry in Hyc. lia.
  - intros year. rewrite negb_true_iff. apply truthy_yearConstants.
  - intros year. rewrite negb_true_iff. apply truthy_YEAR_CONSTANTS.
  - intros year month day Hne. split; split.
    + intros [message Hthrow].
      destruct (Calculator.yearConstants !! year) as [yc |] eqn:Hyc;
        [| reflexivity].
      rewrite (Calculator_computes year month day yc Hne Hyc) in Hthrow.
      discriminate Hthrow.
    + intros Hyc. eexists. apply Calculator_throws; assumption.
    + intros Hfail.
      destruct (Cover.YEAR_CONSTANTS !! year) as [yc |] eqn:Hyc;
        [| reflexivity].
      rewrite (Cover_computes year month day yc Hne Hyc) in Hfail.
      discriminate Hfail.
    + intros Hyc. apply Cover_undefined; assumption.
Qed.

(** C10 at 2016, whose constant 12 is the smallest of the tables. *)
Lemma C10_truthiness_is_absence_witness :
  12 <= 12 <= 237 /\
  truthy (Calculator.yearConstants !! 2016) = true /\
  ~ (exists message : string,
        Calculator.calculateKin 2016 1 1 = Calculator.Throw message).
Proof.
  destruct C10_truthiness_is_absence as (Hval & _ & _ & _ & Hbranch).
  split; [apply (Hval 2016 12 eq_refl) |].
  split; [reflexivity |].
  destruct (Hbranch 2016 1 1) as [[Hthrow _] _]; [discriminate |].
  intros Hex. apply Hthrow in Hex. discriminate Hex.
Defined.

(** * Further properties of the code *)

(** ** What the results carry besides the kin *)

Lemma monthConstants_None (month : Z) :
  month < 1 \/ 12 < month ->
  Calculator.monthConstants !! month = None.
Proof. intros Hm. unfold Calculator.monthConstants. absent_key. Qed.

(** The kin of the component as an integer, with the seal index the
    function derives from it. *)
Lemma Cover_result (year month day yc mc : Z) :
  (month, day) <> (2, 29) ->
  Cover.YEAR_CONSTANTS !! year = Some yc ->
  Cover.MONTH_CONSTANTS !! month = Some mc ->
  let k := Spec.wrap (yc + mc + day + Spec.leapAdjustment year month day) in
  let i := (k - 1) mod 20 in
  let j := (k - 1) mod 13 in
  Cover.calculateKin year month day =
  Cover.mkKinResult
    (Num (Int k))
    (index Cover.SEAL_NAMES (Int i))
    (index Cover.TONE_NAMES (Int j))
    (Num (Int (i + 1)))
    false
    (to_string (index Cover.TONE_NAMES (Int j))
       +:+ to_string (index Cover.SEAL_NAMES (Int i)))
    (Str ("./images/"
            +:+ padStart 2 "0" (num_to_string (Int (i + 1)))
            +:+ ".png")).
Proof.
  intros Hne Hyc Hmc k i j.
  rewrite (Cover_computes year month day yc Hne Hyc).
  rewrite (Cover_raw year month day yc mc Hyc Hmc).
  rewrite loops_wrap, Cover_leapGuard_same, leapGuard_leapAdjustment.
  fold (Spec.wrap (yc + mc + day + Spec.leapAdjustment year month day)).
  fold k. cbv zeta.
  assert (Hk : 1 <= k <= 260) by apply wrap_range.
  rewrite !rem_after_wrap by lia. reflexivity.
Qed.

Lemma Calculator_result (year month day yc mc : Z) :
  (month, day) <> (2, 29) ->
  Calculator.yearConstants !! year = Some yc ->
  Calculator.monthConstants !! month = Some mc ->
  let k := Spec.wrap (yc + mc + day + Spec.leapAdjustment year month day) in
  let i := (k - 1) mod 20 in
  let j := (k - 1) mod 13 in
  Calculator.calculateKin year month day =
  Calculator.Return
    (Calculator.mkKinResult
       (Num (Int k))
       (index Calculator.sealNames (Int i))
       (index Calculator.toneNames (Int j))
       (Num (Int (i + 1)))
       false
       (to_string (index Calculator.toneNames (Int j))
          +:+ to_string (index Calculator.sealNames (Int i)))).
Proof.
  intros Hne Hyc Hmc k i j.
  rewrite (Calculator_computes year month day yc Hne Hyc).
  rewrite (Calculator_raw year month day yc mc Hyc Hmc).
  rewrite loops_wrap, leapGuard_leapAdjustment.
  fold (Spec.wrap (yc + mc + day + Spec.leapAdjustment year month day)).
  fold k. cbv zeta.
  assert (Hk : 1 <= k <= 260) by apply wrap_range.
  rewrite !rem_after_wrap by lia. reflexivity.
Qed.

(** The file name of a seal number: two digits, zero-padded. *)
Lemma seal_file_name (n : Z) :
  1 <= n <= 20 ->
  padStart 2 "0" (num_to_string (Int n)) =
  (if n <? 10 then "0" else "") +:+ num_to_string (Int n) /\
  String.length (padStart 2 "0" (num_to_string (Int n))) = 2%nat.
Proof. intros Hn. enum_range n 1 20; split; reflexivity. Qed.

(** X1.  On a supported year, a month from 1 to 12 and a date other than
    February 29, the result of the component names its image: the seal
    number is [(kin - 1) mod 20 + 1], between 1 and 20, the seal is the
    entry of [SEAL_NAMES] at that number less one, and the image path is
    [./images/NN.png] with [NN] the seal number on two digits. *)
Theorem X1_seal_number_and_image (year month day yc : Z) :
  Cover.YEAR_CONSTANTS !! year = Some yc ->
  1 <= month <= 12 ->
  (month, day) <> (2, 29) ->
  exists (k n : Z) (s : string),
    Cover.kin (Cover.calculateKin year month day) = Num (Int k) /\
    Cover.sealNumber (Cover.calculateKin year month day) = Num (Int n) /\
    n = (k - 1) mod 20 + 1 /\
    1 <= n <= 20 /\
    Cover.SEAL_NAMES !! Z.to_nat (n - 1) = Some s /\
    Cover.seal (Cover.calculateKin year month day) = Str s /\
    Cover.sealImagePath (Cover.calculateKin year month day) =
    Str ("./images/"
           +:+ ((if n <? 10 then "0" else "") +:+ num_to_string (Int n))
           +:+ ".png") /\
    String.length
      ((if n <? 10 then "0" else "") +:+ num_to_string (Int n)) = 2%nat.
Proof.
  intros Hyc Hm Hne.
  destruct (monthConstants_Some month Hm) as (mc & Hmc & _).
  rewrite (Cover_result year month day yc mc Hne Hyc Hmc). cbv zeta.
  set (k := Spec.wrap (yc + mc + day + Spec.leapAdjustment year month day)).
  pose proof (Z.mod_pos_bound (k - 1) 20 ltac:(lia)) as Hi.
  destruct (index_Some Cover.SEAL_NAMES ((k - 1) mod 20))
    as (s & Hs & His); [simpl; lia |].
  destruct (seal_file_name ((k - 1) mod 20 + 1)) as [Hfile Hlen]; [lia |].
  exists k, ((k - 1) mod 20 + 1), s.
  cbn [Cover.kin Cover.sealNumber Cover.seal Cover.sealImagePath].
  replace ((k - 1) mod 20 + 1 - 1) with ((k - 1) mod 20) by lia.
  rewrite His, Hfile in *.
  repeat split; try assumption; try lia.
Qed.

(** X1 at 6 January 2026: seal number 8, image [./images/08.png]. *)
Lemma X1_seal_number_and_image_witness :
  Cover.sealImagePath (Cover.calculateKin 2026 1 6) =
  Str "./images/08.png".
Proof.
  destruct (X1_seal_number_and_image 2026 1 6 22)
    as (k & n & s & Hk & Hn & _ & _ & _ & _ & Hpath & _).
  - reflexivity.
  - lia.
  - discriminate.
  - vm_compute in Hn. injection Hn as <-. rewrite Hpath. reflexivity.
Defined.

(** X2.  The component's [calculateKin] writes to the console only to warn
    of an unsupported year: the result does not depend on what the console
    holds, the lines already there are kept, one warning naming the year is
    added when the failure record is returned, and nothing is added
    otherwise. *)
Theorem X2_console_warns_only_on_failure
    (year month day : Z) (console : list string) :
  fst (Cover.run_calculateKin year month day console) =
  Cover.calculateKin year month day /\
  (Cover.calculateKin year month day = Cover.yearUndefined ->
   (month, day) <> (2, 29) /\
   Cover.YEAR_CONSTANTS !! year = None /\
   snd (Cover.run_calculateKin year month day console) =
   console ++
   [ "年份 " +:+ num_to_string (Int year)
       +:+ " 的常數尚未定義，請更新 YEAR_CONSTANTS" ]) /\
  (Cover.calculateKin year month day <> Cover.yearUndefined ->
   snd (Cover.run_calculateKin year month day console) = console).
Proof.
  unfold Cover.calculateKin, Cover.run_calculateKin.
  destruct ((month =? 2) && (day =? 29)) eqn:Hfeb.
  - split; [reflexivity |]. split.
    + intros Hfail. discriminate Hfail.
    + intros _. reflexivity.
  - apply feb29_test in Hfeb.
    destruct (truthy (Cover.YEAR_CONSTANTS !! year)) eqn:Ht.
    + split; [reflexivity |]. split.
      * intros Hfail. discriminate Hfail.
      * intros _. reflexivity.
    + apply truthy_YEAR_CONSTANTS in Ht.
      split; [reflexivity |]. split.
      * intros _. repeat split; [exact Hfeb | exact Ht].
      * intros Hnot. contradiction Hnot. reflexivity.
Qed.

(** X2 at 1 January 1899, after one earlier line. *)
Lemma X2_console_warns_only_on_failure_witness :
  snd (Cover.run_calculateKin 1899 1 1 ["ready"]) =
  [ "ready"; "年份 1899 的常數尚未定義，請更新 YEAR_CONSTANTS" ].
Proof.
  destruct (X2_console_warns_only_on_failure 1899 1 1 ["ready"])
    as (_ & Hwarn & _).
  destruct Hwarn as (_ & _ & Hlines).
  - reflexivity.
  - rewrite Hlines. reflexivity.
Defined.

(** X3.  A month outside 1 to 12 is not rejected.  On a supported year
    the month constant reads [undefined], the sum is [NaN], the loops do
    not run, and both copies return an object with [kin] and [sealNumber]
    [NaN], [seal] and [tone] [undefined] and the text
    "undefinedundefined"; the component's image path is
    [./images/NaN.png]. *)
Theorem X3_month_outside_table (year month day : Z) :
  month < 1 \/ 12 < month ->
  (is_Some (Calculator.yearConstants !! year) ->
   Calculator.calculateKin year month day =
   Calculator.Return
     (Calculator.mkKinResult (Num NaN) Undefined Undefined (Num NaN) false
                             "undefinedundefined"))
  /\
  (is_Some (Cover.YEAR_CONSTANTS !! year) ->
   Cover.calculateKin year month day =
   Cover.mkKinResult (Num NaN) Undefined Undefined (Num NaN) false
                     "undefinedundefined" (Str "./images/NaN.png")).
Proof.
  intros Hm.
  assert (Hne : (month, day) <> (2, 29)) by (intros [= -> ->]; lia).
  pose proof (monthConstants_None month Hm) as Hmc.
  split; intros [yc Hyc].
  - rewrite (Calculator_computes year month day yc Hne Hyc).
    unfold Calculator.leapStep, Calculator.baseKin.
    change (Calculator.g_yearConstants Calculator.globals)
      with Calculator.yearConstants.
    change (Calculator.g_monthConstants Calculator.globals)
      with Calculator.monthConstants.
    rewrite Hyc, Hmc.
    destruct (Calculator.leapGuard year month day); simpl;
      rewrite loops_NaN; reflexivity.
  - rewrite (Cover_computes year month day yc Hne Hyc).
    unfold Cover.leapStep, Cover.baseKin.
    rewrite Hyc, MONTH_CONSTANTS_same, Hmc.
    destruct (Cover.leapGuard year month day); simpl;
      rewrite loops_NaN; reflexivity.
Qed.

(** X3 at month 13 of 2026. *)
Lemma X3_month_outside_table_witness :
  Calculator.calculateKin 2026 13 1 =
  Calculator.Return
    (Calculator.mkKinResult (Num NaN) Undefined Undefined (Num NaN) false
                            "undefinedundefined").
Proof.
  destruct (X3_month_outside_table 2026 13 1) as [HC _].
  - right. lia.
  - apply HC. exists 22. reflexivity.
Defined.

(** ** The kin along the calendar *)

Lemma wrap_succ (z : Z) : Spec.wrap (z + 1) = Spec.wrap z mod 260 + 1.
Proof.
  unfold Spec.wrap. rewrite Z.add_mod_idemp_l by lia.
  f_equal. f_equal. lia.
Qed.

Lemma wrap_period (z : Z) : Spec.wrap (z + 260) = Spec.wrap z.
Proof. unfold Spec.wrap. rewrite wrap_shift_up. reflexivity. Qed.

Lemma not_feb29 (month day : Z) :
  (month, day) <> (2, 29) -> month <> 2 \/ day <> 29.
Proof.
  intros Hne. destruct (Z.eq_dec month 2) as [-> |]; [| left; assumption].
  right. intros ->. apply Hne. reflexivity.
Qed.

(** The adjustment is the same on two successive days of a month, the
    Hunab Ku day apart. *)
Lemma leapAdjustment_next_day (year month day : Z) :
  (month, day) <> (2, 29) ->
  (month, day + 1) <> (2, 29) ->
  Spec.leapAdjustment year month (day + 1) =
  Spec.leapAdjustment year month day.
Proof.
  intros Hne Hne'. apply not_feb29 in Hne. apply not_feb29 in Hne'.
  unfold Spec.leapAdjustment.
  destruct (decide (Spec.leapYear year /\ Spec.afterFeb28 month (day + 1)))
    as [[Hl Ha] | Hn];
    destruct (decide (Spec.leapYear year /\ Spec.afterFeb28 month day))
    as [[Hl' Ha'] | Hn']; try reflexivity; exfalso.
  - apply Hn'. split; [exact Hl |]. unfold Spec.afterFeb28 in *. lia.
  - apply Hn. split; [exact Hl' |]. unfold Spec.afterFeb28 in *. lia.
Qed.

(** X4.  Within a month the kin advances by one from a day to the next,
    wrapping from 260 to 1, on every supported year and for every day,
    as long as neither of the two days is February 29.  This holds in the
    script and in the component. *)
Theorem X4_next_day_next_kin (year month day : Z) :
  1 <= month <= 12 ->
  (month, day) <> (2, 29) ->
  (month, day + 1) <> (2, 29) ->
  (is_Some (Calculator.yearConstants !! year) ->
   exists (r r' : Calculator.KinResult) (k : Z),
     Calculator.calculateKin year month day = Calculator.Return r /\
     Calculator.calculateKin year month (day + 1) = Calculator.Return r' /\
     Calculator.kin r = Num (Int k) /\
     Calculator.kin r' = Num (Int (k mod 260 + 1)))
  /\
  (is_Some (Cover.YEAR_CONSTANTS !! year) ->
   exists k : Z,
     Cover.kin (Cover.calculateKin year month day) = Num (Int k) /\
     Cover.kin (Cover.calculateKin year month (day + 1)) =
     Num (Int (k mod 260 + 1))).
Proof.
  intros Hm Hne Hne'.
  destruct (monthConstants_Some month Hm) as (mc & Hmc & _).
  pose proof (leapAdjustment_next_day year month day Hne Hne') as Hadj.
  split; intros [yc Hyc].
  - destruct (Calculator_kin year month day yc mc Hne Hyc Hmc)
      as (r & Hr & Hk & _).
    destruct (Calculator_kin year month (day + 1) yc mc Hne' Hyc Hmc)
      as (r' & Hr' & Hk' & _).
    exists r, r'. eexists. repeat split; try eassumption.
    rewrite Hk', Hadj, <- wrap_succ. do 3 f_equal. lia.
  - destruct (Cover_kin year month day yc mc Hne Hyc Hmc) as [Hk _].
    destruct (Cover_kin year month (day + 1) yc mc Hne' Hyc Hmc)
      as [Hk' _].
    eexists. split; [exact Hk |].
    rewrite Hk', Hadj, <- wrap_succ. do 3 f_equal. lia.
Qed.

(** X4 at 22 and 23 September 2026, kins 27 and 28. *)
Lemma X4_next_day_next_kin_witness :
  exists k : Z,
    Cover.kin (Cover.calculateKin 2026 9 22) = Num (Int k) /\
    Cover.kin (Cover.calculateKin 2026 9 (22 + 1)) =
    Num (Int (k mod 260 + 1)).
Proof.
  destruct (X4_next_day_next_kin 2026 9 22) as [_ HV].
  - lia.
  - discriminate.
  - discriminate.
  - apply HV. exists 22. reflexivity.
Defined.

(** X5.  From 31 December to 1 January the kin advances by one after a
    common year and stays the same after a leap year: the year constants
    advance by 365 days modulo 260, and the day the leap statement adds
    from March on is not carried into the next year's constant.  This holds
    for the years 2014 to 2029 in the script and 2014 to 2034 in the
    component. *)
Theorem X5_new_year (year : Z) :
  (2014 <= year <= 2029 ->
   exists (r r' : Calculator.KinResult) (k k' : Z),
     Calculator.calculateKin year 12 31 = Calculator.Return r /\
     Calculator.calculateKin (year + 1) 1 1 = Calculator.Return r' /\
     Calculator.kin r = Num (Int k) /\
     Calculator.kin r' = Num (Int k') /\
     k' = if Calculator.isLeapYear year then k else k mod 260 + 1)
  /\
  (2014 <= year <= 2034 ->
   exists k k' : Z,
     Cover.kin (Cover.calculateKin year 12 31) = Num (Int k) /\
     Cover.kin (Cover.calculateKin (year + 1) 1 1) = Num (Int k') /\
     k' = if Cover.isLeapYear year then k else k mod 260 + 1).
Proof.
  split; intros Hy.
  - enum_range year 2014 2029;
      (do 4 eexists;
       split; [vm_compute; reflexivity |];
       split; [vm_compute; reflexivity |];
       split; [reflexivity |]; split; reflexivity).
  - enum_range year 2014 2034;
      (do 2 eexists;
       split; [vm_compute; reflexivity |];
       split; [vm_compute; reflexivity |]; reflexivity).
Qed.

(** X5 at the turn of 2016, a leap year: 31 December 2016 and
    1 January 2017 both have kin 118. *)
Lemma X5_new_year_witness :
  Cover.kin (Cover.calculateKin 2016 12 31) = Num (Int 118) /\
  Cover.kin (Cover.calculateKin (2016 + 1) 1 1) = Num (Int 118).
Proof.
  destruct (X5_new_year 2016) as [_ HV].
  destruct HV as (k & k' & Hk & Hk' & Hsame); [lia |].
  rewrite Hk, Hk', Hsame. vm_compute in Hk. injection Hk as <-.
  split; reflexivity.
Defined.

(** The sums on the last day of a month and on the first day of the next,
    the year constant left out: one apart, up to a turn of 260, or two
    apart when February of a leap year ends. *)
Lemma month_boundary_sums (year month L mc mc' : Z) :
  1 <= month <= 11 ->
  [31; 28; 31; 30; 31; 30; 31; 31; 30; 31; 30] !! Z.to_nat (month - 1)
  = Some L ->
  Calculator.monthConstants !! month = Some mc ->
  Calculator.monthConstants !! (month + 1) = Some mc' ->
  let a := mc + L + Spec.leapAdjustment year month L in
  let b := mc' + 1 + Spec.leapAdjustment year (month + 1) 1 in
  if Calculator.isLeapYear year && (month =? 2)
  then b = a + 2
  else b = a + 1 \/ b + 260 = a + 1.
Proof.
  intros Hm HL Hmc Hmc' a b. subst a b.
  unfold Spec.leapAdjustment.
  destruct (Calculator.isLeapYear year) eqn:Hleap.
  - assert (Hl : Spec.leapYear year) by (apply isLeapYear_leapYear; easy).
    enum_range month 1 11;
      vm_compute in HL, Hmc, Hmc';
      injection HL as <-; injection Hmc as <-; injection Hmc' as <-;
      repeat match goal with
             | |- context [decide ?P] =>
                 destruct (decide P) as [[_ ?] | ?]
             end;
      unfold Spec.afterFeb28 in *; simpl; try lia;
      exfalso; intuition lia.
  - assert (Hl : ~ Spec.leapYear year).
    { intros Hl. apply isLeapYear_leapYear in Hl. congruence. }
    enum_range month 1 11;
      vm_compute in HL, Hmc, Hmc';
      injection HL as <-; injection Hmc as <-; injection Hmc' as <-;
      repeat match goal with
             | |- context [decide ?P] =>
                 destruct (decide P) as [[? _] | _]; [contradiction |]
             end;
      simpl; lia.
Qed.

(** X6.  From the last day of a month to the first day of the next, the
    months taken with their lengths in a common year (28 days for
    February), the kin advances by one on every supported year, except
    from 28 February to 1 March of a leap year, where it advances by two.
    This holds in the script and in the component. *)
Theorem X6_next_month_next_kin (year month L : Z) :
  1 <= month <= 11 ->
  [31; 28; 31; 30; 31; 30; 31; 31; 30; 31; 30] !! Z.to_nat (month - 1)
  = Some L ->
  (is_Some (Calculator.yearConstants !! year) ->
   exists (r r' : Calculator.KinResult) (k : Z),
     Calculator.calculateKin year month L = Calculator.Return r /\
     Calculator.calculateKin year (month + 1) 1 = Calculator.Return r' /\
     Calculator.kin r = Num (Int k) /\
     Calculator.kin r' =
     Num (Int (if Calculator.isLeapYear year && (month =? 2)
               then (k mod 260 + 1) mod 260 + 1
               else k mod 260 + 1)))
  /\
  (is_Some (Cover.YEAR_CONSTANTS !! year) ->
   exists k : Z,
     Cover.kin (Cover.calculateKin year month L) = Num (Int k) /\
     Cover.kin (Cover.calculateKin year (month + 1) 1) =
     Num (Int (if Cover.isLeapYear year && (month =? 2)
               then (k mod 260 + 1) mod 260 + 1
               else k mod 260 + 1))).
Proof.
  intros Hm HL.
  destruct (monthConstants_Some month) as (mc & Hmc & _); [lia |].
  destruct (monthConstants_Some (month + 1)) as (mc' & Hmc' & _); [lia |].
  assert (Hne : (month, L) <> (2, 29)).
  { intros [= -> ->]. vm_compute in HL. discriminate HL. }
  assert (Hne' : (month + 1, 1) <> (2, 29)) by (intros [= _ H1]).
  pose proof (month_boundary_sums year month L mc mc' Hm HL Hmc Hmc')
    as Hsums. cbv zeta in Hsums.
  assert (Hstep : forall yc : Z,
             Spec.wrap (yc + mc' + 1 + Spec.leapAdjustment year (month + 1) 1)
             = if Calculator.isLeapYear year && (month =? 2)
               then (Spec.wrap (yc + mc + L
                                + Spec.leapAdjustment year month L)
                     mod 260 + 1) mod 260 + 1
               else Spec.wrap (yc + mc + L
                               + Spec.leapAdjustment year month L)
                    mod 260 + 1).
  { intros yc.
    destruct (Calculator.isLeapYear year && (month =? 2)).
    - rewrite <- !wrap_succ. f_equal. lia.
    - rewrite <- wrap_succ. destruct Hsums as [Hs | Hs].
      + f_equal. lia.
      + rewrite <- (wrap_period (yc + mc' + 1 + _)). f_equal. lia. }
  split; intros [yc Hyc].
  - destruct (Calculator_kin year month L yc mc Hne Hyc Hmc)
      as (r & Hr & Hk & _).
    destruct (Calculator_kin year (month + 1) 1 yc mc' Hne' Hyc Hmc')
      as (r' & Hr' & Hk' & _).
    exists r, r'. eexists. repeat split; try eassumption.
    rewrite Hk', Hstep. reflexivity.
  - destruct (Cover_kin year month L yc mc Hne Hyc Hmc) as [Hk _].
    destruct (Cover_kin year (month + 1) 1 yc mc' Hne' Hyc Hmc')
      as [Hk' _].
    eexists. split; [exact Hk |].
    rewrite Hk', Hstep. reflexivity.
Qed.

(** X6 from 30 September to 1 October 2026 (kins 35 and 36, the month
    constant falling from 243 to 13) and from 28 February to 1 March
    2024 (kins 131 and 133). *)
Lemma X6_next_month_next_kin_witness :
  (exists k : Z,
      Cover.kin (Cover.calculateKin 2026 9 30) = Num (Int k) /\
      Cover.kin (Cover.calculateKin 2026 (9 + 1) 1) =
      Num (Int (k mod 260 + 1))) /\
  (exists k : Z,
      Cover.kin (Cover.calculateKin 2024 2 28) = Num (Int k) /\
      Cover.kin (Cover.calculateKin 2024 (2 + 1) 1) =
      Num (Int ((k mod 260 + 1) mod 260 + 1))).
Proof.
  split.
  - destruct (X6_next_month_next_kin 2026 9 30) as [_ HV].
    + lia.
    + reflexivity.
    + apply HV. exists 22. reflexivity.
  - destruct (X6_next_month_next_kin 2024 2 28) as [_ HV].
    + lia.
    + reflexivity.
    + apply HV. exists 72. reflexivity.
Defined.

(** ** Seal and tone against the kin *)

Lemma sealNames_NoDup : NoDup Calculator.sealNames.
Proof. refine (bool_decide_unpack _ _). vm_compute. exact I. Qed.

Lemma toneNames_NoDup : NoDup Calculator.toneNames.
Proof. refine (bool_decide_unpack _ _). vm_compute. exact I. Qed.

(** A number from 1 to 260 is known from its classes modulo 20 and
    modulo 13. *)
Lemma kin_from_residues (k k' : Z) :
  1 <= k <= 260 -> 1 <= k' <= 260 ->
  (k - 1) mod 20 = (k' - 1) mod 20 ->
  (k - 1) mod 13 = (k' - 1) mod 13 ->
  k = k'.
Proof.
  intros Hk Hk' H20 H13.
  pose proof (Z.div_mod (k - 1) 20 ltac:(lia)).
  pose proof (Z.div_mod (k' - 1) 20 ltac:(lia)).
  pose proof (Z.div_mod (k - 1) 13 ltac:(lia)).
  pose proof (Z.div_mod (k' - 1) 13 ltac:(lia)).
  lia.
Qed.

(** A normal result of the script on a month of the table: its kin is
    an integer from 1 to 260 and its seal and tone are the entries of the
    name tables at the remainders of [kin - 1]. *)
Lemma Calculator_normal_names
    (year month day : Z) (r : Calculator.KinResult) :
  1 <= month <= 12 ->
  Calculator.calculateKin year month day = Calculator.Return r ->
  Calculator.isHunabKu r = false ->
  exists (k : Z) (s t : string),
    Calculator.kin r = Num (Int k) /\
    1 <= k <= 260 /\
    Calculator.sealNames !! Z.to_nat ((k - 1) mod 20) = Some s /\
    Calculator.seal r = Str s /\
    Calculator.toneNames !! Z.to_nat ((k - 1) mod 13) = Some t /\
    Calculator.tone r = Str t.
Proof.
  intros Hm Hr Hh.
  destruct (monthConstants_Some month Hm) as (mc & Hmc & _).
  destruct (decide ((month, day) = (2, 29))) as [[= -> ->] | Hne].
  { rewrite Calculator_feb29 in Hr. injection Hr as <-. discriminate Hh. }
  destruct (Calculator.yearConstants !! year) as [yc |] eqn:Hyc.
  - rewrite (Calculator_result year month day yc mc Hne Hyc Hmc) in Hr.
    cbv zeta in Hr. injection Hr as <-.
    set (k := Spec.wrap
                (yc + mc + day + Spec.leapAdjustment year month day)).
    assert (Hk : 1 <= k <= 260) by apply wrap_range.
    destruct (index_Some Calculator.sealNames ((k - 1) mod 20))
      as (s & Hs & His).
    { pose proof (Z.mod_pos_bound (k - 1) 20). simpl. lia. }
    destruct (index_Some Calculator.toneNames ((k - 1) mod 13))
      as (t & Ht & Hit).
    { pose proof (Z.mod_pos_bound (k - 1) 13). simpl. lia. }
    exists k, s, t.
    cbn [Calculator.kin Calculator.seal Calculator.tone].
    repeat split; try assumption; lia.
  - rewrite (Calculator_throws year month day Hne Hyc) in Hr.
    discriminate Hr.
Qed.

(** X7.  Seal and tone identify the kin.  If two calls of the script, on
    months from 1 to 12, return normal results with the same seal and the
    same tone, they return the same kin: the twenty seal names and the
    thirteen tone names are pairwise distinct, and a number from 1 to 260
    is fixed by its remainders modulo 20 and 13. *)
Theorem X7_seal_and_tone_identify_kin
    (year month day year' month' day' : Z)
    (r r' : Calculator.KinResult) :
  1 <= month <= 12 ->
  1 <= month' <= 12 ->
  Calculator.calculateKin year month day = Calculator.Return r ->
  Calculator.calculateKin year' month' day' = Calculator.Return r' ->
  Calculator.isHunabKu r = false ->
  Calculator.isHunabKu r' = false ->
  Calculator.seal r = Calculator.seal r' ->
  Calculator.tone r = Calculator.tone r' ->
  Calculator.kin r = Calculator.kin r'.
Proof.
  intros Hm Hm' Hr Hr' Hh Hh' Hseal Htone.
  destruct (Calculator_normal_names year month day r Hm Hr Hh)
    as (k & s & t & Hk & Hrange & Hs & Hrs & Ht & Hrt).
  destruct (Calculator_normal_names year' month' day' r' Hm' Hr' Hh')
    as (k' & s' & t' & Hk' & Hrange' & Hs' & Hrs' & Ht' & Hrt').
  rewrite Hrs, Hrs' in Hseal. injection Hseal as <-.
  rewrite Hrt, Hrt' in Htone. injection Htone as <-.
  pose proof (NoDup_lookup _ _ _ _ sealNames_NoDup Hs Hs') as Hi.
  pose proof (NoDup_lookup _ _ _ _ toneNames_NoDup Ht Ht') as Hj.
  apply Z2Nat.inj in Hi; [| apply Z.mod_pos_bound; lia ..].
  apply Z2Nat.inj in Hj; [| apply Z.mod_pos_bound; lia ..].
  rewrite Hk, Hk'. do 2 f_equal.
  apply kin_from_residues; assumption.
Qed.

(** X7 at 6 January 2026 and 23 September 2026: same seal, same tone,
    same kin. *)
Lemma X7_seal_and_tone_identify_kin_witness :
  exists r r' : Calculator.KinResult,
    Calculator.calculateKin 2026 1 6 = Calculator.Return r /\
    Calculator.calculateKin 2026 9 23 = Calculator.Return r' /\
    Calculator.kin r = Calculator.kin r'.
Proof.
  eexists. eexists.
  split; [vm_compute; reflexivity |].
  split; [vm_compute; reflexivity |].
  apply (X7_seal_and_tone_identify_kin 2026 1 6 2026 9 23).
  - lia.
  - lia.
  - vm_compute. reflexivity.
  - vm_compute. reflexivity.
  - reflexivity.
  - reflexivity.
  - reflexivity.
  - reflexivity.
Defined.

(** X8.  [isLeapYear] is the proleptic Gregorian rule on the mathematical
    modulo for every integer year, the negative ones included, where [%]
    gives remainders of the sign of the year; it is the same function in
    both files and has period 400. *)
Theorem X8_isLeapYear_gregorian (year : Z) :
  (Calculator.isLeapYear year = true <->
   (year mod 4 = 0 /\ year mod 100 <> 0) \/ year mod 400 = 0) /\
  Cover.isLeapYear year = Calculator.isLeapYear year /\
  Calculator.isLeapYear (year + 400) = Calculator.isLeapYear year.
Proof.
  split; [apply isLeapYear_leapYear |]. split; [reflexivity |].
  apply eq_true_iff_eq. rewrite !isLeapYear_leapYear.
  unfold Spec.leapYear.
  replace (year + 400) with (year + 100 * 4) at 1 by lia.
  replace (year + 400) with (year + 4 * 100) at 1 by lia.
  replace (year + 400) with (year + 1 * 400) by lia.
  rewrite !Z.mod_add by lia. reflexivity.
Qed.

(** X8 at 1900, a multiple of 100 that is not a multiple of 400, and at
    -4, where [-4 % 4] is a negative zero. *)
Lemma X8_isLeapYear_gregorian_witness :
  Calculator.isLeapYear 1900 = false /\ Calculator.isLeapYear (-4) = true.
Proof.
  split.
  - destruct (X8_isLeapYear_gregorian 1900) as [[Hrule _] _].
    destruct (Calculator.isLeapYear 1900); [| reflexivity].
    destruct (Hrule eq_refl) as [[_ H100] | H400].
    + contradiction H100. reflexivity.
    + discriminate H400.
  - destruct (X8_isLeapYear_gregorian (-4)) as [[_ Hrule] _].
    apply Hrule. left. split; [reflexivity | discriminate].
Defined.

(** ** The effect of the component *)

Lemma length_append (s1 s2 : string) :
  String.length (s1 +:+ s2) = (String.length s1 + String.length s2)%nat.
Proof.
  induction s1 as [| c s1 IH]; simpl; [reflexivity |].
  rewrite IH. reflexivity.
Qed.

Lemma two_digits (n : Z) :
  1 <= n <= 31 ->
  padStart 2 "0" (num_to_string (Int n)) =
  (if n <? 10 then "0" else "") +:+ num_to_string (Int n) /\
  String.length (padStart 2 "0" (num_to_string (Int n))) = 2%nat.
Proof. intros Hn. enum_range n 1 31; split; reflexivity. Qed.

Lemma four_digits (year : Z) :
  1000 <= year <= 9999 ->
  String.length (num_to_string (Int year)) = 4%nat.
Proof.
  intros Hy.
  assert (Hall : forallb
                   (fun y : Z => Nat.eqb (String.length (pretty y)) 4)
                   (seqZ 1000 9000) = true)
    by (vm_compute; reflexivity).
  assert (Hin : In year (seqZ 1000 9000)).
  { apply (proj1 (list_elem_of_In _ _)). apply elem_of_seqZ. lia. }
  pose proof (proj1 (forallb_forall _ _) Hall year Hin) as Hlen.
  apply Nat.eqb_eq. exact Hlen.
Qed.

(** What [calculateKin] of the component returns and leaves on the
    console, in one equation. *)
Lemma Cover_run (year month day : Z) (console : list string) :
  Cover.run_calculateKin year month day console =
  (Cover.calculateKin year month day,
   console ++
   (if negb ((month =? 2) && (day =? 29))
       && negb (truthy (Cover.YEAR_CONSTANTS !! year))
    then [ "年份 " +:+ num_to_string (Int year)
             +:+ " 的常數尚未定義，請更新 YEAR_CONSTANTS" ]
    else [])).
Proof.
  unfold Cover.calculateKin, Cover.run_calculateKin.
  destruct ((month =? 2) && (day =? 29)); cbn [negb andb fst];
    [rewrite app_nil_r; reflexivity |].
  destruct (truthy (Cover.YEAR_CONSTANTS !! year)); cbn [negb fst];
    [rewrite app_nil_r |]; reflexivity.
Qed.

(** The three results of the component's [calculateKin] on a month of the
    table. *)
Lemma Cover_three_results (year month day : Z) :
  1 <= month <= 12 ->
  ((month, day) = (2, 29) /\
   Cover.calculateKin year month day = Cover.hunabKu)
  \/
  ((month, day) <> (2, 29) /\ ~ 2014 <= year <= 2035 /\
   Cover.YEAR_CONSTANTS !! year = None /\
   Cover.calculateKin year month day = Cover.yearUndefined)
  \/
  ((month, day) <> (2, 29) /\ 2014 <= year <= 2035 /\
   is_Some (Cover.YEAR_CONSTANTS !! year) /\
   Cover.isHunabKu (Cover.calculateKin year month day) = false /\
   exists k : Z,
     Cover.kin (Cover.calculateKin year month day) = Num (Int k) /\
     1 <= k <= 260).
Proof.
  intros Hm.
  destruct (decide ((month, day) = (2, 29))) as [Heq | Hne].
  { left. split; [exact Heq |]. injection Heq as -> ->.
    apply Cover_feb29. }
  right.
  destruct (Cover.YEAR_CONSTANTS !! year) as [yc |] eqn:Hyc.
  - right. destruct (YEAR_CONSTANTS_entry year yc Hyc) as [Hy _].
    destruct (monthConstants_Some month Hm) as (mc & Hmc & _).
    destruct (Cover_kin year month day yc mc Hne Hyc Hmc) as [Hk Hh].
    repeat split; try assumption; try lia; [eexists; reflexivity |].
    eexists. split; [exact Hk | apply wrap_range].
  - left. repeat split; try assumption.
    + intros Hy. destruct (YEAR_CONSTANTS_Some year Hy) as (yc & Hyc' & _).
      congruence.
    + apply Cover_undefined; assumption.
Qed.

(** X9.  The effect of the component passes [getMonth() + 1] to
    [calculateKin], so with a month reading from 0 to 11 the month is in
    the table and the effect ends with both state variables set, the kin
    data being one of three: the Hunab Ku object, exactly when the clock
    reads 29 February; the failure record, when the year is outside 2014
    to 2035; otherwise a record whose kin is an integer from 1 to 260,
    never [NaN]. *)
Theorem X9_effect_sets_kin_data
    (now : CoverComponent.Date) (console : list string) :
  0 <= CoverComponent.getMonth now <= 11 ->
  exists (r : Cover.KinResult) (d : CoverComponent.CurrentDate),
    fst (CoverComponent.effect now console) =
    CoverComponent.mkState (Some r) (Some d) /\
    CoverComponent.year d = CoverComponent.getFullYear now /\
    CoverComponent.month d = CoverComponent.getMonth now + 1 /\
    CoverComponent.day d = CoverComponent.getDate now /\
    ((CoverComponent.getMonth now = 1 /\ CoverComponent.getDate now = 29 /\
      r = Cover.hunabKu)
     \/
     (~ (CoverComponent.getMonth now = 1 /\
         CoverComponent.getDate now = 29) /\
      ~ 2014 <= CoverComponent.getFullYear now <= 2035 /\
      r = Cover.yearUndefined)
     \/
     (~ (CoverComponent.getMonth now = 1 /\
         CoverComponent.getDate now = 29) /\
      2014 <= CoverComponent.getFullYear now <= 2035 /\
      Cover.isHunabKu r = false /\
      exists k : Z, Cover.kin r = Num (Int k) /\ 1 <= k <= 260)).
Proof.
  intros Hm. destruct now as [y m0 d0]. simpl in Hm.
  unfold CoverComponent.effect.
  cbn [CoverComponent.getFullYear CoverComponent.getMonth
       CoverComponent.getDate].
  rewrite Cover_run. cbn [fst].
  eexists. eexists. split; [reflexivity |].
  cbn [CoverComponent.year CoverComponent.month CoverComponent.day].
  repeat (split; [reflexivity |]).
  destruct (Cover_three_results y (m0 + 1) d0 ltac:(lia))
    as [[Heq Hr] | [(Hne & Hy & _ & Hr) | (Hne & Hy & _ & Hh & Hk)]].
  - left. injection Heq as Hm1 ->. repeat split; [lia | exact Hr].
  - right. left. repeat split; try assumption.
    intros [-> ->]. apply Hne. reflexivity.
  - right. right. repeat split; try assumption; try lia.
    intros [-> ->]. apply Hne. reflexivity.
Qed.

(** X9 at 6 January 2026, the clock reading month 0. *)
Lemma X9_effect_sets_kin_data_witness :
  exists (r : Cover.KinResult) (d : CoverComponent.CurrentDate),
    fst (CoverComponent.effect (CoverComponent.mkDate 2026 0 6) []) =
    CoverComponent.mkState (Some r) (Some d) /\
    CoverComponent.month d = 1.
Proof.
  destruct (X9_effect_sets_kin_data (CoverComponent.mkDate 2026 0 6) [])
    as (r & d & Hstate & _ & Hmonth & _).
  - simpl. lia.
  - exists r, d. split; [exact Hstate | exact Hmonth].
Defined.

(** X10.  For a year of four digits, a month reading from 0 to 11 and a
    day from 1 to 31, the date the effect stores is formatted as
    [YYYY.MM.DD]: ten characters, month and day zero-padded to two
    digits. *)
Theorem X10_formatted_date
    (now : CoverComponent.Date) (console : list string) :
  1000 <= CoverComponent.getFullYear now <= 9999 ->
  0 <= CoverComponent.getMonth now <= 11 ->
  1 <= CoverComponent.getDate now <= 31 ->
  exists (d : CoverComponent.CurrentDate) (yyyy mm dd : string),
    CoverComponent.currentDate (fst (CoverComponent.effect now console)) =
    Some d /\
    CoverComponent.formatted d = yyyy +:+ "." +:+ mm +:+ "." +:+ dd /\
    String.length (CoverComponent.formatted d) = 10%nat /\
    yyyy = num_to_string (Int (CoverComponent.getFullYear now)) /\
    String.length yyyy = 4%nat /\
    mm = (if CoverComponent.getMonth now + 1 <? 10 then "0" else "")
           +:+ num_to_string (Int (CoverComponent.getMonth now + 1)) /\
    String.length mm = 2%nat /\
    dd = (if CoverComponent.getDate now <? 10 then "0" else "")
           +:+ num_to_string (Int (CoverComponent.getDate now)) /\
    String.length dd = 2%nat.
Proof.
  intros Hy Hm Hd. destruct now as [y m0 d0]. simpl in Hy, Hm, Hd.
  unfold CoverComponent.effect.
  cbn [CoverComponent.getFullYear CoverComponent.getMonth
       CoverComponent.getDate].
  rewrite Cover_run. cbn [fst CoverComponent.currentDate].
  destruct (two_digits (m0 + 1)) as [Hmm Hmml]; [lia |].
  destruct (two_digits d0) as [Hdd Hddl]; [lia |].
  pose proof (four_digits y Hy) as Hyl.
  eexists. exists (num_to_string (Int y)).
  exists (padStart 2 "0" (num_to_string (Int (m0 + 1)))).
  exists (padStart 2 "0" (num_to_string (Int d0))).
  split; [reflexivity |]. cbn [CoverComponent.formatted].
  split; [reflexivity |].
  split.
  { rewrite !length_append, Hyl, Hmml, Hddl. reflexivity. }
  repeat split; assumption.
Qed.

(** X10 at 6 January 2026: "2026.01.06". *)
Lemma X10_formatted_date_witness :
  exists d : CoverComponent.CurrentDate,
    CoverComponent.currentDate
      (fst (CoverComponent.effect (CoverComponent.mkDate 2026 0 6) [])) =
    Some d /\
    CoverComponent.formatted d = "2026.01.06".
Proof.
  destruct (X10_formatted_date (CoverComponent.mkDate 2026 0 6) [])
    as (d & yyyy & mm & dd & Hd & Hf & _ & -> & _ & -> & _ & -> & _).
  - simpl. lia.
  - simpl. lia.
  - simpl. lia.
  - exists d. split; [exact Hd |]. rewrite Hf. reflexivity.
Defined.

(** X11.  The effect only adds lines to the console.  On 29 February it
    adds three, the last one announcing Hunab Ku.  On any other date it
    logs the computation, whether or not there was one: for a supported
    year it adds seven lines; for an unsupported year it adds the warning
    of [calculateKin] and then the same seven lines, with the year
    constant printed as "undefined", the kin as "null" and the failure
    text as the name. *)
Theorem X11_effect_console
    (now : CoverComponent.Date) (console : list string) :
  let year := CoverComponent.getFullYear now in
  let month := CoverComponent.getMonth now + 1 in
  let day := CoverComponent.getDate now in
  exists lines : list string,
    snd (CoverComponent.effect now console) = console ++ lines /\
    ((month, day) = (2, 29) ->
     lines =
     [ "=== Kin 計算 ===";
       "日期: " +:+ num_to_string (Int year) +:+ "/2/29";
       "今日為 2/29，顯示 Hunab Ku" ]) /\
    ((month, day) <> (2, 29) ->
     Cover.YEAR_CONSTANTS !! year = None ->
     lines =
     [ "年份 " +:+ num_to_string (Int year)
         +:+ " 的常數尚未定義，請更新 YEAR_CONSTANTS";
       "=== Kin 計算 ===";
       "日期: " +:+ num_to_string (Int year)
         +:+ "/" +:+ num_to_string (Int month)
         +:+ "/" +:+ num_to_string (Int day);
       "年份常數: undefined";
       "月份常數: "
         +:+ CoverComponent.read_to_string (Cover.MONTH_CONSTANTS !! month);
       "日期: " +:+ num_to_string (Int day);
       "KIN: null";
       "完整名稱: 年份數據未定義" ]) /\
    ((month, day) <> (2, 29) ->
     is_Some (Cover.YEAR_CONSTANTS !! year) ->
     length lines = 7%nat).
Proof.
  destruct now as [y m0 d0].
  cbn [CoverComponent.getFullYear CoverComponent.getMonth
       CoverComponent.getDate]. cbv zeta.
  unfold CoverComponent.effect.
  cbn [CoverComponent.getFullYear CoverComponent.getMonth
       CoverComponent.getDate].
  rewrite Cover_run.
  destruct (decide ((m0 + 1, d0) = (2, 29))) as [Heq | Hne].
  - injection Heq as Hm ->. rewrite Hm.
    rewrite Cover_feb29.
    cbn [Cover.isHunabKu Cover.hunabKu negb andb Z.eqb Pos.eqb snd].
    rewrite app_nil_r, <- app_assoc.
    eexists. split; [reflexivity |]. split; [| split].
    + intros _. reflexivity.
    + intros Hne. contradiction Hne. reflexivity.
    + intros Hne. contradiction Hne. reflexivity.
  - pose proof (proj2 (feb29_test (m0 + 1) d0) Hne) as Hfeb.
    rewrite Hfeb. cbn [negb andb].
    destruct (Cover.YEAR_CONSTANTS !! y) as [yc |] eqn:Hyc.
    + assert (Ht : truthy (Some yc) = true).
      { destruct (truthy (Some yc)) eqn:Ht; [reflexivity |].
        rewrite <- Hyc in Ht. apply truthy_YEAR_CONSTANTS in Ht.
        congruence. }
      rewrite Ht. cbn [negb].
      rewrite (Cover_computes y (m0 + 1) d0 yc Hne Hyc).
      cbv zeta. cbn [Cover.isHunabKu negb snd].
      rewrite app_nil_r, <- app_assoc.
      eexists. split; [reflexivity |]. split; [| split].
      * intros Heq. contradiction.
      * intros _ Hnone. discriminate Hnone.
      * intros _ _. reflexivity.
    + cbn [truthy negb].
      rewrite (Cover_undefined y (m0 + 1) d0 Hne Hyc).
      cbn [Cover.isHunabKu Cover.yearUndefined negb snd
           Cover.kin Cover.displayText].
      rewrite <- !app_assoc.
      eexists. split; [reflexivity |]. split; [| split].
      * intros Heq. contradiction.
      * intros _ _. reflexivity.
      * intros _ [yc' Hyc']. discriminate Hyc'.
Qed.

(** X11 at 1 January 1899: eight lines, the kin logged as "null". *)
Lemma X11_effect_console_witness :
  snd (CoverComponent.effect (CoverComponent.mkDate 1899 0 1) []) =
  [ "年份 1899 的常數尚未定義，請更新 YEAR_CONSTANTS";
    "=== Kin 計算 ===";
    "日期: 1899/1/1";
    "年份常數: undefined";
    "月份常數: 0";
    "日期: 1";
    "KIN: null";
    "完整名稱: 年份數據未定義" ].
Proof.
  destruct (X11_effect_console (CoverComponent.mkDate 1899 0 1) [])
    as (lines & Hlines & _ & Hfail & _).
  rewrite Hlines, Hfail.
  - reflexivity.
  - discriminate.
  - reflexivity.
Defined.

(** ** The Kin engine of [RedRoom] *)


(** The entry of the tone table at a position: its [id] is the position
    plus one. *)
Lemma tone_at (j : Z) :
  0 <= j < 13 ->
  exists t : RedRoom.Tone,
    RedRoom.at_index RedRoom.TONE_NAMES (Int j) = Some t /\
    RedRoom.tone_id t = j + 1 /\
    RedRoom.TONE_NAMES !! Z.to_nat j = Some t.
Proof.
  intros Hj. enum_range j 0 12; (eexists; repeat split; reflexivity).
Qed.

(** The entry of the glyph table at a position: [id], image and colour
    follow from the position, and the name is the seal name of the
    calculator at the same position. *)
Lemma glyph_at (i : Z) :
  0 <= i < 20 ->
  exists g : RedRoom.Glyph,
    RedRoom.at_index RedRoom.GLYPH_NAMES (Int i) = Some g /\
    RedRoom.glyph_id g = i + 1 /\
    RedRoom.GLYPH_NAMES !! Z.to_nat i = Some g /\
    Cover.SEAL_NAMES !! Z.to_nat i = Some (RedRoom.glyph_name g) /\
    RedRoom.imagePath g =
    "../images/" +:+ padStart 2 "0" (num_to_string (Int (i + 1)))
                 +:+ ".png" /\
    ["red"; "white"; "blue"; "yellow"] !! Z.to_nat (i mod 4) =
    Some (RedRoom.color g).
Proof.
  intros Hi. enum_range i 0 19; (eexists; repeat split; reflexivity).
Qed.

(** [getKinData] on an integer: two table reads, at the remainders of
    [kinNumber - 1]. *)
Lemma getKinData_Int (KIN_DATA : gmap Z RedRoom.Message) (k : Z) :
  RedRoom.getKinData KIN_DATA (Int k) =
  match RedRoom.at_index RedRoom.TONE_NAMES (Int (Z.rem (k - 1) 13)) with
  | None => RedRoom.TypeError
  | Some t =>
      match
        RedRoom.at_index RedRoom.GLYPH_NAMES (Int (Z.rem (k - 1) 20))
      with
      | None => RedRoom.TypeError
      | Some g =>
          RedRoom.Return
            (RedRoom.mkKinData
               (Int k)
               (Int (Z.rem (k - 1) 13 + 1))
               (RedRoom.tone_name t)
               (Int (Z.rem (k - 1) 20 + 1))
               (RedRoom.glyph_name g)
               g
               (RedRoom.tone_name t +:+ "的" +:+ RedRoom.glyph_name g)
               (RedRoom.getKinMessage KIN_DATA (Int k)))
      end
  end.
Proof.
  unfold RedRoom.getKinData. cbn [add sub rem Z.eqb].
  rewrite !Z.add_simpl_r. reflexivity.
Qed.





(** X14.  Tone and glyph identify the kin: for two different kin numbers
    from 1 to 260, [getKinData] returns different pairs of tone number and
    glyph number. *)
Theorem X14_tone_and_glyph_identify_kin
    (KIN_DATA : gmap Z RedRoom.Message) (k k' : Z)
    (d d' : RedRoom.KinData) :
  1 <= k <= 260 ->
  1 <= k' <= 260 ->
  k <> k' ->
  RedRoom.getKinData KIN_DATA (Int k) = RedRoom.Return d ->
  RedRoom.getKinData KIN_DATA (Int k') = RedRoom.Return d' ->
  (RedRoom.toneId d, RedRoom.glyphId d) <>
  (RedRoom.toneId d', RedRoom.glyphId d').
Proof.
  intros Hk Hk' Hneq Hd Hd' [= Htone Hglyph]. apply Hneq.
  rewrite getKinData_Int in Hd, Hd'.
  rewrite !Z.rem_mod_nonneg in Hd, Hd' by lia.
  pose proof (Z.mod_pos_bound (k - 1) 13 ltac:(lia)) as H13.
  pose proof (Z.mod_pos_bound (k - 1) 20 ltac:(lia)) as H20.
  pose proof (Z.mod_pos_bound (k' - 1) 13 ltac:(lia)) as H13'.
  pose proof (Z.mod_pos_bound (k' - 1) 20 ltac:(lia)) as H20'.
  destruct (tone_at _ H13) as (t & Et & _).
  destruct (glyph_at _ H20) as (g & Eg & _).
  destruct (tone_at _ H13') as (t' & Et' & _).
  destruct (glyph_at _ H20') as (g' & Eg' & _).
  rewrite Et, Eg in Hd. rewrite Et', Eg' in Hd'.
  injection Hd as <-. injection Hd' as <-.
  cbn [RedRoom.toneId RedRoom.glyphId] in Htone, Hglyph.
  injection Htone as Htone. injection Hglyph as Hglyph.
  apply kin_from_residues; lia.
Qed.

(** X14 at kins 28 and 48, which share glyph 8 and differ in tone. *)
Lemma X14_tone_and_glyph_identify_kin_witness :
  exists d d' : RedRoom.KinData,
    RedRoom.getKinData ∅ (Int 28) = RedRoom.Return d /\
    RedRoom.getKinData ∅ (Int 48) = RedRoom.Return d' /\
    RedRoom.glyphId d = RedRoom.glyphId d' /\
    (RedRoom.toneId d, RedRoom.glyphId d) <>
    (RedRoom.toneId d', RedRoom.glyphId d').
Proof.
  eexists. eexists.
  split; [vm_compute; reflexivity |].
  split; [vm_compute; reflexivity |].
  split; [reflexivity |].
  apply (X14_tone_and_glyph_identify_kin ∅ 28 48).
  - lia.
  - lia.
  - discriminate.
  - vm_compute. reflexivity.
  - vm_compute. reflexivity.
Defined.

(** X15.  The two components name a kin nearly alike.  For the kin the
    [Cover] calculator returns on a month from 1 to 12, [getKinData]
    returns the same glyph: its name is the seal, its number the seal
    number, and its image path the seal image path with one more leading
    dot.  The full name is the text of the calculator for every tone but
    the seventh and the eighth, which the tone table of [RedRoom] calls
    "共鳴" and "銀河" and that of the calculator "共振的" and
    "銀河星系的": there the two names differ. *)
Theorem X15_redroom_names_against_cover
    (KIN_DATA : gmap Z RedRoom.Message) (year month day k : Z) :
  1 <= month <= 12 ->
  Cover.kin (Cover.calculateKin year month day) = Num (Int k) ->
  exists (d : RedRoom.KinData) (path : string),
    RedRoom.getKinData KIN_DATA (Int k) = RedRoom.Return d /\
    Cover.seal (Cover.calculateKin year month day) =
    Str (RedRoom.glyphName d) /\
    Cover.sealNumber (Cover.calculateKin year month day) =
    Num (RedRoom.glyphId d) /\
    Cover.sealImagePath (Cover.calculateKin year month day) = Str path /\
    RedRoom.imagePath (RedRoom.glyphData d) = "." +:+ path /\
    (RedRoom.toneId d <> Int 7 -> RedRoom.toneId d <> Int 8 ->
     Cover.displayText (Cover.calculateKin year month day) =
     RedRoom.fullName d) /\
    (RedRoom.toneId d = Int 7 \/ RedRoom.toneId d = Int 8 ->
     Cover.displayText (Cover.calculateKin year month day) <>
     RedRoom.fullName d).
Proof.
  intros Hm Hkin.
  destruct (monthConstants_Some month Hm) as (mc & Hmc & _).
  destruct (decide ((month, day) = (2, 29))) as [[= -> ->] | Hne].
  { rewrite Cover_feb29 in Hkin. discriminate Hkin. }
  destruct (Cover.YEAR_CONSTANTS !! year) as [yc |] eqn:Hyc;
    [| rewrite (Cover_undefined year month day Hne Hyc) in Hkin;
       discriminate Hkin].
  rewrite (Cover_result year month day yc mc Hne Hyc Hmc) in Hkin |- *.
  cbv zeta in Hkin |- *.
  cbn [Cover.kin Cover.seal Cover.sealNumber Cover.sealImagePath
       Cover.displayText] in Hkin |- *.
  injection Hkin as Hkin. rewrite Hkin.
  assert (Hk : 1 <= k <= 260) by (rewrite <- Hkin; apply wrap_range).
  clear Hkin Hyc Hmc.
  rewrite getKinData_Int, !Z.rem_mod_nonneg by lia.
  pose proof (Z.mod_pos_bound (k - 1) 20 ltac:(lia)) as Hi.
  pose proof (Z.mod_pos_bound (k - 1) 13 ltac:(lia)) as Hj.
  generalize dependent ((k - 1) mod 20). intros i Hi.
  generalize dependent ((k - 1) mod 13). intros j Hj.
  enum_range i 0 19; enum_range j 0 12;
    (eexists; eexists;
     split; [reflexivity |];
     split; [reflexivity |];
     split; [reflexivity |];
     split; [reflexivity |];
     split; [reflexivity |];
     split;
     [ intros H7 H8;
       first [ reflexivity
             | contradiction H7; reflexivity
             | contradiction H8; reflexivity ]
     | intros [H | H];
       first [ discriminate H
             | intros Hsame; vm_compute in Hsame; discriminate Hsame ] ]).
Qed.

(** X15 at 6 January 2026, kin 28, and at 11 January 2026, kin 33 of the
    seventh tone: "共振的紅天行者" for the calculator, "共鳴的紅天行者" for
    [RedRoom]. *)
Lemma X15_redroom_names_against_cover_witness :
  (exists d : RedRoom.KinData,
      RedRoom.getKinData ∅ (Int 28) = RedRoom.Return d /\
      Cover.displayText (Cover.calculateKin 2026 1 6) = RedRoom.fullName d)
  /\
  (exists d : RedRoom.KinData,
      RedRoom.getKinData ∅ (Int 33) = RedRoom.Return d /\
      Cover.displayText (Cover.calculateKin 2026 1 11) = "共振的紅天行者" /\
      RedRoom.fullName d = "共鳴的紅天行者").
Proof.
  split.
  - destruct (X15_redroom_names_against_cover ∅ 2026 1 6 28)
      as (d & path & Hd & _ & _ & _ & _ & Hsame & _).
    + lia.
    + vm_compute. reflexivity.
    + exists d. split; [exact Hd |].
      vm_compute in Hd. injection Hd as <-.
      apply Hsame; discriminate.
  - destruct (X15_redroom_names_against_cover ∅ 2026 1 11 33)
      as (d & path & Hd & _).
    + lia.
    + vm_compute. reflexivity.
    + exists d. split; [exact Hd |].
      vm_compute in Hd. injection Hd as <-.
      split; vm_compute; reflexivity.
Defined.

(** X16.  The tone of a kin is drawn in the Maya way.  For the tone number
    [getKinData] returns on an integer from 1 up, the dots and bars of
    [ToneDisplay] and [MiniToneDisplay] count to the tone, a bar for five
    and a dot for one, with at most four dots and two bars and at least
    one mark. *)
Theorem X16_dots_and_bars
    (KIN_DATA : gmap Z RedRoom.Message) (k : Z) (d : RedRoom.KinData) :
  1 <= k ->
  RedRoom.getKinData KIN_DATA (Int k) = RedRoom.Return d ->
  exists tone : Z,
    RedRoom.toneId d = Int tone /\
    1 <= tone <= 13 /\
    5 * RedRoom.bars tone + RedRoom.dots tone = tone /\
    0 <= RedRoom.dots tone <= 4 /\
    0 <= RedRoom.bars tone <= 2 /\
    (0 < RedRoom.dots tone \/ 0 < RedRoom.bars tone).
Proof.
  intros Hk Hd. rewrite getKinData_Int in Hd.
  rewrite !Z.rem_mod_nonneg in Hd by lia.
  pose proof (Z.mod_pos_bound (k - 1) 13 ltac:(lia)) as H13.
  pose proof (Z.mod_pos_bound (k - 1) 20 ltac:(lia)) as H20.
  destruct (tone_at _ H13) as (t & Et & _).
  destruct (glyph_at _ H20) as (g & Eg & _).
  rewrite Et, Eg in Hd. injection Hd as <-.
  exists ((k - 1) mod 13 + 1). cbn [RedRoom.toneId].
  set (tone := (k - 1) mod 13 + 1) in *.
  assert (Htone : 1 <= tone <= 13) by (unfold tone; lia).
  unfold RedRoom.dots, RedRoom.bars.
  rewrite Z.rem_mod_nonneg by lia.
  pose proof (Z.div_mod tone 5 ltac:(lia)).
  pose proof (Z.mod_pos_bound tone 5 ltac:(lia)).
  repeat split; try reflexivity; try lia.
Qed.

(** X16 at kin 33, tone 7: one bar and two dots. *)
Lemma X16_dots_and_bars_witness :
  RedRoom.bars 7 = 1 /\ RedRoom.dots 7 = 2.
Proof.
  destruct (X16_dots_and_bars ∅ 33
              (RedRoom.mkKinData (Int 33) (Int 7) "共鳴" (Int 13) "紅天行者"
                 (RedRoom.mkGlyph 13 "紅天行者" "../images/13.png" "red")
                 "共鳴的紅天行者" RedRoom.reading))
    as (tone & Htone & _ & Hsum & _).
  - lia.
  - vm_compute. reflexivity.
  - split; reflexivity.
Defined.

(** ** The draw history *)

Lemma take_app_take {A : Type} (n : nat) (a b : list A) :
  take n (a ++ take n b) = take n (a ++ b).
Proof.
  rewrite !take_app, take_take. do 2 f_equal. lia.
Qed.

(** X17.  The history keeps the five latest draws, latest first.  One
    update puts the new record in front of the first four of the previous
    ones; starting from a history of at most five records, any run of
    updates leaves the first five of the new records in reverse order
    followed by the old ones, never more than five in all. *)
Theorem X17_history_keeps_five_latest
    (records prev : list RedRoom.HistoryRecord) :
  (length prev <= 5)%nat ->
  (forall newRecord : RedRoom.HistoryRecord,
      RedRoom.pushRecord newRecord prev = newRecord :: take 4 prev) /\
  foldl (fun history newRecord => RedRoom.pushRecord newRecord history)
        prev records
  = take 5 (reverse records ++ prev) /\
  (length
     (foldl (fun history newRecord => RedRoom.pushRecord newRecord history)
            prev records) <= 5)%nat.
Proof.
  intros Hlen. split; [reflexivity |].
  assert (Hfold :
            foldl (fun history newRecord =>
                     RedRoom.pushRecord newRecord history) prev records
            = take 5 (reverse records ++ prev)).
  { revert prev Hlen. induction records as [| r records IH];
      intros prev Hlen.
    - simpl. rewrite take_ge by lia. reflexivity.
    - cbn [foldl]. rewrite IH.
      + unfold RedRoom.pushRecord. rewrite take_app_take.
        rewrite reverse_cons, <- app_assoc. reflexivity.
      + unfold RedRoom.pushRecord. rewrite length_take. lia. }
  split; [exact Hfold |].
  rewrite Hfold, length_take. lia.
Qed.

(** X17 on six draws from an empty history: the first draw is gone. *)
Lemma X17_history_keeps_five_latest_witness :
  map RedRoom.id
      (foldl (fun history newRecord => RedRoom.pushRecord newRecord history)
             []
             (map (fun n => RedRoom.mkHistoryRecord n (Int n) "12:00")
                  [1; 2; 3; 4; 5; 6]))
  = [6; 5; 4; 3; 2].
Proof.
  destruct (X17_history_keeps_five_latest
              (map (fun n => RedRoom.mkHistoryRecord n (Int n) "12:00")
                   [1; 2; 3; 4; 5; 6]) [])
    as (_ & Hfold & _).
  - simpl. lia.
  - rewrite Hfold. reflexivity.
Defined.
